(** * plantcv [analyze_color]: a shallow embedding and its properties

    The development follows [plantcv/plantcv/analyze_color.py].  The routine
    masks a BGR image, derives its Lab and HSV representations, quantizes the
    nine channels, takes a masked histogram of each, computes circular
    statistics of hue and writes the results into the process-wide
    [outputs] store.

    The source is read as Python 3 ([256 / bins] is a true division).
    OpenCV, NumPy, SciPy, pandas and plotnine are not part of the analysed
    file.  Their operations are embedded by their documented behaviour on
    8-bit arrays:
    - arithmetic that NumPy and OpenCV carry out on IEEE doubles is carried
      out on Rocq's primitive binary64 floats, so that rounding is the
      machine's;
    - the two colour conversions of [cv2.cvtColor] are section variables:
      every theorem holds for whatever per-pixel conversion the library
      implements;
    - [str.upper] is a section variable as well: Python upper-cases by the
      Unicode tables (the long s, U+017F, becomes S), and the theorems hold
      for whatever mapping the interpreter implements;
    - the entries of a histogram are the 32-bit floats into which
      [cv2.calcHist] converts its [int] counts; they are whole numbers and
      are held as such, rounded as the conversion rounds them;
    - SciPy's circular statistics are kept as the call itself (function,
      samples, period), since their value is a transcendental float;
    - of the file system, the world records for each directory whether a
      file can be created in it.
    Arrays hold unsigned bytes.  The limits of memory are not represented. *)

From Stdlib Require Import ZArith Lia PrimFloat FloatOps SpecFloat.
From Stdlib Require Import String Ascii.
From stdpp Require Import base option list list_numbers gmap strings pretty sorting.

Local Open Scope string_scope.
Local Open Scope list_scope.
Local Open Scope Z_scope.

(** ** Python exceptions and the call monad *)

(** The exceptions a call can end with.  [RuntimeError] is what
    [fatal_error] raises; the others come from the interpreter and from the
    libraries.  [OSError kind filename] stands for the subclass of OSError
    named [kind] (FileNotFoundError, PermissionError, ...), raised on
    opening [filename]. *)
Inductive exn : Type :=
| RuntimeError (msg : string)
| ZeroDivisionError (msg : string)
| ValueError (msg : string)
| KeyError (key : string)
| NameError (name : string)
| OSError (kind filename : string)
| cv2_error (msg : string).

Inductive outcome (A : Type) : Type :=
| Return (a : A)
| Raise (e : exn).
Arguments Return {A} a.
Arguments Raise {A} e.

(** ** IEEE doubles *)

Module F.

(** An integer as a double: the nearest one, ties to even (the integer
    itself below 2^53 in magnitude). *)
Definition of_Z (z : Z) : float := SF2Prim (binary_normalize prec emax z 0 false).

(** Integer part of the magnitude of a finite double, with a flag telling
    whether a fractional part was dropped. *)
Definition magnitude (m : positive) (e : Z) : Z * bool :=
  match e with
  | Z0 => (Zpos m, false)
  | Zpos p => (Zpos m * 2 ^ Zpos p, false)
  | Zneg p => (Zpos m / 2 ^ Zpos p, negb (Zpos m mod 2 ^ Zpos p =? 0))
  end.

(** C's conversion of a double to an integer: the fraction is discarded.
    NaN and the infinities, for which C leaves the result open, give 0. *)
Definition trunc (f : float) : Z :=
  match Prim2SF f with
  | S754_finite s m e => let v := fst (magnitude m e) in if s then - v else v
  | _ => 0
  end.

(** Largest integer not above the double ([cvFloor]). *)
Definition floor (f : float) : Z :=
  match Prim2SF f with
  | S754_finite s m e =>
      let '(v, frac) := magnitude m e in
      if s then (if frac then - v - 1 else - v) else v
  | _ => 0
  end.

End F.

(** ** C numbers *)

Module C.

Definition INT_MAX : Z := 2 ^ 31 - 1.

(** A value stored in an [int]: 32 bits, two's complement. *)
Definition int (z : Z) : Z := (z + 2 ^ 31) `mod` 2 ^ 32 - 2 ^ 31.

(** The integer nearest to [n / d], ties to the even one ([0 <= n], [0 < d]). *)
Definition round_half_even (n d : Z) : Z :=
  let q := n `div` d in
  let r := n `mod` d in
  if 2 * r <? d then q
  else if d <? 2 * r then q + 1
  else if Z.even q then q else q + 1.

(** An integer converted to [float] (binary32): the nearest number with 24
    significant bits, ties to even.  The result is an integer again.
    (Magnitudes beyond the range of binary32 do not occur.) *)
Definition float (z : Z) : Z :=
  let e := Z.log2 (Z.abs z) - 23 in
  if e <=? 0 then z
  else Z.sgn z * round_half_even (Z.abs z) (2 ^ e) * 2 ^ e.

End C.

(** ** Process-wide state: [params] and [outputs] *)

(** One row of a melted data frame: bin, channel label, pixel count. *)
Definition melted_row : Type := Z * string * Z.

(** A plotnine figure: the melted frame it draws, the x-axis breaks and the
    manual colour scale. *)
Record ggplot : Type := mk_ggplot {
  plot_frame : list melted_row;
  plot_breaks : list Z;
  plot_colors : list string
}.

(** A delegated SciPy call; the samples and the period identify its value. *)
Module stats.
Inductive call : Type :=
| circmean (samples : list Z) (high : Z)
| circstd (samples : list Z) (high : Z).
End stats.

(** Values that are reported and stored. *)
Inductive value : Type :=
| VStr (s : string)
| VInt (z : Z)
| VList (l : list Z)
| VStat (c : stats.call)
| VFloat (f : float).

(** Modelled from the spec: [params] of plantcv/__init__.py is absent; the
    spec names a process-wide device counter and a debug mode setting
    (off / print-to-file / display) with a configured output directory. *)
Record Params : Type := mk_Params {
  device : Z;
  debug : option string;
  debug_outdir : string
}.

(** Modelled from the spec: [outputs] of plantcv/__init__.py is absent; the
    spec describes a store keyed by measurement category then field name,
    and a separate list accumulating the emitted plot artifacts. *)
Record Outputs : Type := mk_Outputs {
  measurements : gmap string (gmap string value);
  images : list (list ggplot)
}.

(** The world a call runs in: the two shared objects, the files written by
    [hist_fig.save], the figures sent to standard output by [print], and
    the file system as far as saving goes: for a directory, the kind of
    OSError that creating a file in it ends with (FileNotFoundError where
    the directory is missing, PermissionError where it cannot be written),
    if any. *)
Record world : Type := mk_world {
  params : Params;
  outputs : Outputs;
  saved : list (string * ggplot);
  printed : list ggplot;
  file_system : string → option string
}.

Definition M (A : Type) : Type := world → world * outcome A.

#[global] Instance M_ret : MRet M := λ A a w, (w, Return a).
#[global] Instance M_bind : MBind M := λ A B f m w,
  match m w with
  | (w', Return a) => f a w'
  | (w', Raise e) => (w', Raise e)
  end.

Definition raise {A} (e : exn) : M A := λ w, (w, Raise e).
Definition lift {A} (o : outcome A) : M A := λ w, (w, o).
Definition get_world : M world := λ w, (w, Return w).
Definition set_params (p : Params) : M unit :=
  λ w, (mk_world p (outputs w) (saved w) (printed w) (file_system w), Return tt).
Definition set_outputs (o : Outputs) : M unit :=
  λ w, (mk_world (params w) o (saved w) (printed w) (file_system w), Return tt).
Definition when (b : bool) (m : M unit) : M unit := if b then m else mret tt.

(** Modelled from the spec: [fatal_error] of plantcv/__init__.py is absent;
    the spec says the checks that call it fail with an error, which aborts
    the call. *)
Definition fatal_error {A} (error : string) : M A := raise (RuntimeError error).

(** ** NumPy arrays of unsigned bytes *)

(** [shape] as [np.shape] returns it, [flat] the elements in C order. *)
Record ndarray : Type := mk_ndarray {
  shape : list nat;
  flat : list Z
}.

Module np.

(** [np.divide(a, d)]: element-wise true division in double precision. *)
Definition divide (a : list Z) (d : float) : list float :=
  (λ x, PrimFloat.div (F.of_Z x) d) <$> a.

(** [.astype(np.uint8)]: C conversion, reduced to eight bits. *)
Definition astype_uint8 (a : list float) : list Z :=
  (λ f, F.trunc f `mod` 256) <$> a.

(** [np.arange(0, n)]. *)
Definition arange (n : Z) : list Z := seqZ 0 n.

(** [np.median]: the mean, in double precision, of the middle element or
    of the two middle elements of the sorted samples; NaN when there is
    none. *)
Definition median (l : list Z) : float :=
  let s := merge_sort Z.le l in
  let n := length s in
  if (n =? 0)%nat then PrimFloat.nan
  else if Nat.odd n then F.of_Z (s !!! (n / 2)%nat)
  else PrimFloat.div
         (PrimFloat.add (F.of_Z (s !!! (n / 2 - 1)%nat)) (F.of_Z (s !!! (n / 2)%nat)))
         (F.of_Z 2).

End np.

(** Python's [256 / bins] on integers. *)
Definition true_div (a b : Z) : outcome float :=
  if b =? 0 then Raise (ZeroDivisionError "division by zero")
  else Return (PrimFloat.div (F.of_Z a) (F.of_Z b)).

(** ** OpenCV on 8-bit images *)

Module cv2.

(** Height and width of a single-channel array, given as (h, w) or as
    (h, w, 1). *)
Definition size_8UC1 (m : ndarray) : option (nat * nat) :=
  match shape m with
  | [h; w] | [h; w; 1%nat] => Some (h, w)
  | _ => None
  end.

(** [cv2.bitwise_and(src1, src2, mask=mask)] on (h, w, c) images with a
    single-channel mask of the same height and width: where the mask is
    non-zero the bytes are and-ed, elsewhere the freshly allocated
    destination keeps its zeros.  Any other combination of shapes is
    refused by the library. *)
Definition bitwise_and (src1 src2 mask : ndarray) : outcome ndarray :=
  match shape src1, size_8UC1 mask with
  | [h; w; c], Some (h', w') =>
      if bool_decide (shape src2 = shape src1 ∧ h' = h ∧ w' = w) then
        Return (mk_ndarray (shape src1)
                  (imap (λ i x, if (flat mask !!! (i / c)%nat) =? 0 then 0
                                else Z.land x (flat src2 !!! i))
                        (flat src1)))
      else Raise (cv2_error "bitwise_and: sizes of the arrays and the mask differ")
  | _, _ => Raise (cv2_error "bitwise_and: unsupported array or mask shape")
  end.

(** Channel [k] of an interleaved image with [c] channels and [n] pixels. *)
Definition plane (c n k : nat) (data : list Z) : list Z :=
  (λ i, data !!! (i * c + k)%nat) <$> seq 0 n.

(** [cv2.split]: one plane per channel; an empty array (no row or no
    column) gives no plane at all. *)
Definition split (m : ndarray) : list (list Z) :=
  match shape m with
  | [h; w; c] =>
      if (h * w =? 0)%nat then []
      else (λ k, plane c (h * w) k (flat m)) <$> seq 0 c
  | _ => [flat m]
  end.

(** [cv2.cvtColor(src, code)] for a three-channel conversion [code],
    applied pixel by pixel. *)
Definition cvtColor (src : ndarray) (code : Z * Z * Z → Z * Z * Z) : outcome ndarray :=
  match shape src with
  | [h; w; 3%nat] =>
      Return (mk_ndarray (shape src)
                (i ← seq 0 (h * w);
                 let '(x, y, z) := code (flat src !!! (3 * i)%nat,
                                         flat src !!! (3 * i + 1)%nat,
                                         flat src !!! (3 * i + 2)%nat) in
                 [x; y; z]))
  | _ => Raise (cv2_error "cvtColor: invalid number of channels in input image")
  end.

(** The lookup table [calcHist] builds for a uniform histogram of an
    8-bit image: the bin of value [j], or nothing when [j] falls outside
    the range [low <= j < high].  [a] and [b] are the doubles the library
    derives from the range: [a = histSize / (high - low)], [b = - a * low];
    the index computed from them is brought back into [0, histSize - 1]. *)
Definition hist_bin (histSize low high : Z) (j : Z) : option nat :=
  let a := PrimFloat.div (F.of_Z histSize)
             (PrimFloat.sub (F.of_Z high) (F.of_Z low)) in
  let b := PrimFloat.mul (PrimFloat.opp a) (F.of_Z low) in
  let idx := F.floor (PrimFloat.add (PrimFloat.mul (F.of_Z j) a) b) in
  if (low <=? j) && (j <? high)
  then Some (Z.to_nat (Z.max (Z.min idx (histSize - 1)) 0))
  else None.

(** The accumulation loop: a pixel is counted when its mask byte is
    non-zero and its value has a bin. *)
Definition hist_step (tab : Z → option nat) (H : list Z) (p : Z * Z) : list Z :=
  let '(v, m) := p in
  if m =? 0 then H
  else match tab v with
       | Some i => alter Z.succ i H
       | None => H
       end.

(** The counts of the accumulation loop over a whole image. *)
Definition hist_counts (histSize low high : Z) (image mask : list Z) : list Z :=
  foldl (hist_step (hist_bin histSize low high))
    (replicate (Z.to_nat histSize) 0) (zip image mask).

(** An entry of the histogram handed back: the count, kept in an [int]
    and converted to a 32-bit float at the end. *)
Definition hist_entry (count : Z) : Z := C.float (C.int count).

(** [cv2.calcHist([image], [0], mask, [histSize], [low, high])], read
    back as [[l[0] for l in hist]].  [histSize] is passed as a C [int] and
    the range as 32-bit floats; the library asserts a positive size and
    [low < high]. *)
Definition calcHist (image mask : list Z) (histSize : Z) (ranges : Z * Z)
  : outcome (list Z) :=
  let low := C.float ranges.1 in
  let high := C.float ranges.2 in
  if C.INT_MAX <? histSize then
    Raise (cv2_error "calcHist: histSize does not fit a C int")
  else if (0 <? histSize) && (low <? high) then
    Return (hist_entry <$> hist_counts histSize low high image mask)
  else Raise (cv2_error "calcHist: bad histogram size or range").

End cv2.

(** ** [collections.Counter] over hue values *)

Module Counter.

(** [Counter(iterable)]: each element raises its own count by one. *)
Definition add (c : gmap Z nat) (k : Z) : gmap Z nat :=
  <[k := S (default 0%nat (c !! k))]> c.

Definition of_iterable (l : list Z) : gmap Z nat := foldl add ∅ l.

(** [dict.__delitem__]: a missing key is an error. *)
Definition dict_delitem (k : Z) (c : gmap Z nat) : outcome (gmap Z nat) :=
  match c !! k with
  | Some _ => Return (delete k c)
  | None => Raise (KeyError (pretty k))
  end.

(** [Counter.__delitem__]: "Like dict.__delitem__() but does not raise
    KeyError for missing values": [if elem in self: super().__delitem__(elem)]. *)
Definition delitem (k : Z) (c : gmap Z nat) : outcome (gmap Z nat) :=
  if bool_decide (is_Some (c !! k)) then dict_delitem k c else Return c.

Definition items (c : gmap Z nat) : list (Z * nat) := map_to_list c.

End Counter.

(** [sorted(c.items(), key=lambda t: t[0])]. *)
Definition key_le (x y : Z * nat) : Prop := x.1 ≤ y.1.

#[global] Instance key_le_dec : RelDecision key_le.
Proof. intros x y. unfold key_le. apply _. Defined.

Definition sorted_items (items : list (Z * nat)) : list (Z * nat) :=
  merge_sort key_le items.

(** The loop filling [temp_hue_list_hsv]: for every index [i] of [ordered],
    the [i]-th key is appended as many times as the [i]-th value says. *)
Definition hue_loop (ordered : list (Z * nat)) : list Z :=
  foldl (λ temp i,
           temp ++ replicate ((ordered.*2) !!! i) ((ordered.*1) !!! i))
        [] (seq 0 (length ordered)).

(** Lines 157-176: from the hue plane to the list of hue observations. *)
Definition temp_hue_list (h : list Z) : outcome (list Z) :=
  match Counter.delitem 0 (Counter.of_iterable h) with
  | Return c => Return (hue_loop (sorted_items (Counter.items c)))
  | Raise e => Raise e
  end.

(** ** Strings *)

Fixpoint endswith_slash (s : string) : bool :=
  match s with
  | EmptyString => false
  | String c EmptyString => bool_decide (c = "/"%char)
  | String _ s' => endswith_slash s'
  end.

(** [os.path.join] of a directory and a relative file name. *)
Definition path_join (dir name : string) : string :=
  if bool_decide (dir = "") then name
  else if endswith_slash dir then dir +:+ name
  else dir +:+ "/" +:+ name.

(** ** pandas and plotnine *)

(** [pd.melt(dataset, id_vars=['bins'], value_vars=..., var_name='Color
    Channel', value_name='Pixels')]: one row per bin for each listed column,
    column after column. *)
Definition melt (dataset : gmap string (list Z)) (value_vars : list string)
  : list melted_row :=
  name ← value_vars;
  (λ '(b, x), (b, name, x))
    <$> zip (default [] (dataset !! "bins")) (default [] (dataset !! name)).

(** [list(range(0, stop, 25))]. *)
Definition range_by_25 (stop : Z) : list Z :=
  (λ k, 25 * k) <$> seqZ 0 ((stop + 24) `div` 25).

(** [ggplot(df, aes(...)) + geom_line() + scale_x_continuous(breaks=...)
    + scale_color_manual(colors)]. *)
Definition hist_figure (dataset : gmap string (list Z)) (value_vars : list string)
    (bins : Z) (colors : list string) : ggplot :=
  mk_ggplot (melt dataset value_vars) (range_by_25 bins) colors.

(** ** The analysis *)

#[global] Instance outcome_ret : MRet outcome := λ A a, Return a.
#[global] Instance outcome_bind : MBind outcome := λ A B f o,
  match o with
  | Return a => f a
  | Raise e => Raise e
  end.

(** [np.divide(ch, (256 / bins)).astype(np.uint8)]. *)
Definition quantize (ch : list Z) (bins : Z) : outcome (list Z) :=
  d ← true_div 256 bins;
  mret (np.astype_uint8 (np.divide ch d)).

(** [x, y, z = cv2.split(...)]. *)
Definition unpack3 (planes : list (list Z)) : outcome (list Z * list Z * list Z) :=
  match planes with
  | [x; y; z] => Return (x, y, z)
  | _ :: _ :: _ :: _ :: _ =>
      Raise (ValueError "too many values to unpack (expected 3)")
  | _ =>
      Raise (ValueError ("not enough values to unpack (expected 3, got "
                         +:+ pretty (length planes) +:+ ")"))
  end.

Definition hist_types : gmap string (list string) :=
  {[ "ALL" := ["b"; "g"; "r"; "l"; "m"; "y"; "h"; "s"; "v"];
     "RGB" := ["b"; "g"; "r"];
     "LAB" := ["l"; "m"; "y"];
     "HSV" := ["h"; "s"; "v"] ]}.

(** [hist_plot_type is not None and hist_plot_type.upper() not in hist_types],
    for the interpreter's [str.upper]. *)
Definition plot_type_rejected (upper : string → string)
    (hist_plot_type : option string) : bool :=
  match hist_plot_type with
  | None => false
  | Some t => bool_decide (hist_types !! upper t = None)
  end.

Definition dquote : string := String (ascii_of_nat 34) EmptyString.

Definition plot_type_message (hist_plot_type : option string) : string :=
  "The histogram plot type was " +:+ default "None" hist_plot_type +:+
  ", but can only be one of the following: None, "
  +:+ dquote +:+ "all" +:+ dquote +:+ ", "
  +:+ dquote +:+ "rgb" +:+ dquote +:+ ", "
  +:+ dquote +:+ "lab" +:+ dquote +:+ ", or "
  +:+ dquote +:+ "hsv" +:+ dquote +:+ "!".

Definition color_header : list string :=
  [ "HEADER_COLOR"; "bin-number"; "bin-values"; "blue"; "green"; "red";
    "lightness"; "green-magenta"; "blue-yellow"; "hue"; "saturation"; "value";
    "circular_mean"; "circular_std"; "median" ].

(** Lines 109-154: the figure appended to [analysis_images], if any. *)
Definition make_figures (upper : string → string)
    (dataset : gmap string (list Z)) (bins : Z)
    (hist_plot_type : option string) : list ggplot :=
  match hist_plot_type with
  | None => []
  | Some t =>
      if bool_decide (upper t = "RGB") then
        [hist_figure dataset ["blue"; "green"; "red"] bins ["blue"; "green"; "red"]]
      else if bool_decide (upper t = "LAB") then
        [hist_figure dataset ["lightness"; "green-magenta"; "blue-yellow"] bins
           ["yellow"; "magenta"; "dimgray"]]
      else if bool_decide (upper t = "HSV") then
        [hist_figure dataset ["hue"; "saturation"; "value"] bins
           ["blueviolet"; "cyan"; "orange"]]
      else if bool_decide (upper t = "ALL") then
        [hist_figure dataset
           ["blue"; "green"; "red"; "lightness"; "green-magenta"; "blue-yellow";
            "hue"; "saturation"; "value"] bins
           ["blue"; "yellow"; "green"; "magenta"; "blueviolet"; "dimgray"; "red";
            "cyan"; "orange"]]
      else []
  end.

(** [hist_fig.save(path)] for a file in the directory [dir]: the file is
    written where the file system lets it be created; otherwise opening it
    raises and nothing is written. *)
Definition save_figure (dir path : string) (fig : ggplot) : M unit :=
  λ w, match file_system w dir with
       | Some kind => (w, Raise (OSError kind path))
       | None =>
           (mk_world (params w) (outputs w) (saved w ++ [(path, fig)]) (printed w)
              (file_system w), Return tt)
       end.

(** [print(hist_fig)]. *)
Definition print_figure (fig : ggplot) : M unit :=
  λ w, (mk_world (params w) (outputs w) (saved w) (printed w ++ [fig])
          (file_system w), Return tt).

(** Reading [hist_fig], the variable bound by the branch, if any, that
    built a figure. *)
Definition read_hist_fig (hist_fig : option ggplot) : M ggplot :=
  match hist_fig with
  | Some fig => mret fig
  | None => raise (NameError "hist_fig")
  end.

(** Lines 225-229: the figure is saved or printed according to
    [params.debug]. *)
Definition debug_output (hist_plot_type : option string) (hist_fig : option ggplot)
  : M unit :=
  match hist_plot_type with
  | None => mret tt
  | Some _ =>
      w ← get_world;
      if bool_decide (debug (params w) = Some "print") then
        fig ← read_hist_fig hist_fig;
        save_figure (debug_outdir (params w))
          (path_join (debug_outdir (params w))
             (pretty (device (params w)) +:+ "_analyze_color_hist.png"))
          fig
      else if bool_decide (debug (params w) = Some "plot") then
        fig ← read_hist_fig hist_fig;
        print_figure fig
      else mret tt
  end.

(** [if not 'color_data' in outputs.measurements:
       outputs.measurements['color_data'] = {}]. *)
Definition ensure_category (category : string) : M unit :=
  w ← get_world;
  match measurements (outputs w) !! category with
  | Some _ => mret tt
  | None =>
      set_outputs (mk_Outputs (<[category := ∅]> (measurements (outputs w)))
                     (images (outputs w)))
  end.

(** [outputs.measurements[category][field] = v]. *)
Definition store (category field : string) (v : value) : M unit :=
  w ← get_world;
  match measurements (outputs w) !! category with
  | Some fields =>
      set_outputs (mk_Outputs
                     (<[category := <[field := v]> fields]> (measurements (outputs w)))
                     (images (outputs w)))
  | None => raise (KeyError category)
  end.

(** [outputs.images.append(analysis_images)]. *)
Definition append_images (analysis_images : list ggplot) : M unit :=
  w ← get_world;
  set_outputs (mk_Outputs (measurements (outputs w))
                 (images (outputs w) ++ [analysis_images])).

(** The nine channels, under the keys of the source's dictionaries. *)
Record channels : Type := mk_channels {
  ch_b : list Z; ch_g : list Z; ch_r : list Z;
  ch_l : list Z; ch_m : list Z; ch_y : list Z;
  ch_h : list Z; ch_s : list Z; ch_v : list Z
}.

(** Lines 47-56, the dictionary [norm_channels]: its nine values are
    evaluated in order. *)
Definition norm_channels (c : channels) (bins : Z) : outcome channels :=
  b ← quantize (ch_b c) bins;
  g ← quantize (ch_g c) bins;
  r ← quantize (ch_r c) bins;
  l ← quantize (ch_l c) bins;
  m ← quantize (ch_m c) bins;
  y ← quantize (ch_y c) bins;
  h ← quantize (ch_h c) bins;
  s ← quantize (ch_s c) bins;
  v ← quantize (ch_v c) bins;
  mret (mk_channels b g r l m y h s v).

(** Lines 67-96, the dictionary [histograms] and the lists [hist_data_*]
    read from it. *)
Definition histograms (norm : channels) (mask : ndarray) (bins : Z) : outcome channels :=
  b ← cv2.calcHist (ch_b norm) (flat mask) bins (0, bins - 1);
  g ← cv2.calcHist (ch_g norm) (flat mask) bins (0, bins - 1);
  r ← cv2.calcHist (ch_r norm) (flat mask) bins (0, bins - 1);
  l ← cv2.calcHist (ch_l norm) (flat mask) bins (0, bins - 1);
  m ← cv2.calcHist (ch_m norm) (flat mask) bins (0, bins - 1);
  y ← cv2.calcHist (ch_y norm) (flat mask) bins (0, bins - 1);
  h ← cv2.calcHist (ch_h norm) (flat mask) bins (0, bins - 1);
  s ← cv2.calcHist (ch_s norm) (flat mask) bins (0, bins - 1);
  v ← cv2.calcHist (ch_v norm) (flat mask) bins (0, bins - 1);
  mret (mk_channels b g r l m y h s v).

(** Lines 102-106, the data frame. *)
Definition dataset (binval : list Z) (hist_data : channels) : gmap string (list Z) :=
  {[ "bins" := binval; "blue" := ch_b hist_data; "green" := ch_g hist_data;
     "red" := ch_r hist_data; "lightness" := ch_l hist_data;
     "green-magenta" := ch_m hist_data; "blue-yellow" := ch_y hist_data;
     "hue" := ch_h hist_data; "saturation" := ch_s hist_data;
     "value" := ch_v hist_data ]}.

(** Lines 203-219. *)
Definition color_data (bins : Z) (bin_values : list Z) (hist_data : channels)
    (circular_mean circular_std : stats.call) (median : float) : list value :=
  [ VStr "COLOR_DATA"; VInt bins; VList bin_values;
    VList (ch_b hist_data); VList (ch_g hist_data); VList (ch_r hist_data);
    VList (ch_l hist_data); VList (ch_m hist_data); VList (ch_y hist_data);
    VList (ch_h hist_data); VList (ch_s hist_data); VList (ch_v hist_data);
    VStat circular_mean; VStat circular_std; VFloat median ].

(** Lines 231-250: the measurements go under "color_data", the figures at
    the end of [outputs.images]. *)
Definition store_results (bins : Z) (bin_values : list Z) (hist_data : channels)
    (circular_mean circular_std : stats.call) (median : float)
    (analysis_images : list ggplot) : M unit :=
  ensure_category "color_data";;
  store "color_data" "bin-number" (VInt bins);;
  store "color_data" "bin-values" (VList bin_values);;
  store "color_data" "blue" (VList (ch_b hist_data));;
  store "color_data" "green" (VList (ch_g hist_data));;
  store "color_data" "red" (VList (ch_r hist_data));;
  store "color_data" "lightness" (VList (ch_l hist_data));;
  store "color_data" "green-magenta" (VList (ch_m hist_data));;
  store "color_data" "blue-yellow" (VList (ch_y hist_data));;
  store "color_data" "hue" (VList (ch_h hist_data));;
  store "color_data" "saturation" (VList (ch_s hist_data));;
  store "color_data" "value" (VList (ch_v hist_data));;
  store "color_data" "mean" (VStat circular_mean);;
  store "color_data" "standard-deviation" (VStat circular_std);;
  store "color_data" "median" (VFloat median);;
  append_images analysis_images.

Section analyze_color.

(** The per-pixel maps [cv2.cvtColor] applies for [cv2.COLOR_BGR2LAB] and
    [cv2.COLOR_BGR2HSV] on 8-bit images. *)
Variables COLOR_BGR2LAB COLOR_BGR2HSV : Z * Z * Z → Z * Z * Z.

(** The interpreter's [str.upper]. *)
Variable upper : string → string.

(** Lines 39-44: masking, conversion and splitting. *)
Definition split_channels (rgb_img mask : ndarray) : outcome channels :=
  masked ← cv2.bitwise_and rgb_img rgb_img mask;
  '(b, g, r) ← unpack3 (cv2.split masked);
  lab ← cv2.cvtColor masked COLOR_BGR2LAB;
  '(l, m, y) ← unpack3 (cv2.split lab);
  hsv ← cv2.cvtColor masked COLOR_BGR2HSV;
  '(h, s, v) ← unpack3 (cv2.split hsv);
  mret (mk_channels b g r l m y h s v).

Definition analyze_color (rgb_img mask : ndarray) (bins : Z)
    (hist_plot_type : option string)
  : M (list string * list value * list ggplot) :=
  w ← get_world;
  set_params (mk_Params (device (params w) + 1) (debug (params w))
                (debug_outdir (params w)));;
  when (length (shape rgb_img) <? 3)%nat
    (fatal_error "rgb_img must be an RGB image");;
  c ← lift (split_channels rgb_img mask);
  norm ← lift (norm_channels c bins);
  when (plot_type_rejected upper hist_plot_type)
    (fatal_error (plot_type_message hist_plot_type));;
  hist_data ← lift (histograms norm mask bins);
  let binval := np.arange bins in
  let bin_values := binval in
  let analysis_images :=
    make_figures upper (dataset binval hist_data) bins hist_plot_type in
  temp_hue_list_hsv ← lift (temp_hue_list (ch_h c));
  let circular_mean := stats.circmean temp_hue_list_hsv 180 in
  let circular_std := stats.circstd temp_hue_list_hsv 180 in
  let median := np.median temp_hue_list_hsv in
  debug_output hist_plot_type (head analysis_images);;
  store_results bins bin_values hist_data circular_mean circular_std median
    analysis_images;;
  mret (color_header,
        color_data bins bin_values hist_data circular_mean circular_std median,
        analysis_images).

End analyze_color.

(** ** The ASCII case mappings *)

Definition ascii_upper_char (c : ascii) : ascii :=
  let n := nat_of_ascii c in
  if ((97 <=? n) && (n <=? 122))%nat then ascii_of_nat (n - 32) else c.

Definition ascii_lower_char (c : ascii) : ascii :=
  let n := nat_of_ascii c in
  if ((65 <=? n) && (n <=? 90))%nat then ascii_of_nat (n + 32) else c.

Fixpoint ascii_upper (s : string) : string :=
  match s with
  | EmptyString => EmptyString
  | String c s' => String (ascii_upper_char c) (ascii_upper s')
  end.

Fixpoint ascii_lower (s : string) : string :=
  match s with
  | EmptyString => EmptyString
  | String c s' => String (ascii_lower_char c) (ascii_lower s')
  end.

(** ** Stand-ins for running the model on concrete inputs *)

Module py.

(** A stand-in for [str.upper] on strings in UTF-8: the ASCII letters and
    the long s (U+017F, the bytes 197 and 191), which Python upper-cases to
    S; every other byte is left as it is.  It only serves to run the
    model; the theorems quantify over the mapping. *)
Fixpoint upper (s : string) : string :=
  match s with
  | EmptyString => EmptyString
  | String "197"%char (String "191"%char s') => String "S"%char (upper s')
  | String c s' => String (ascii_upper_char c) (upper s')
  end.

End py.

Module cv2_8u.

(** [cvRound (n / d)] for [0 <= n], [0 < d]: nearest integer, ties to even. *)
Definition round_div (n d : Z) : Z :=
  let q := n `div` d in
  let r := n `mod` d in
  if 2 * r <? d then q
  else if d <? 2 * r then q + 1
  else if Z.even q then q else q + 1.

Definition hsv_shift : Z := 12.

Definition sdiv_table (i : Z) : Z :=
  if i =? 0 then 0 else round_div (Z.shiftl 255 hsv_shift) i.

Definition hdiv_table180 (i : Z) : Z :=
  if i =? 0 then 0 else round_div (Z.shiftl 180 hsv_shift) (6 * i).

Definition saturate_uchar (x : Z) : Z := Z.max 0 (Z.min 255 x).

(** OpenCV's 8-bit BGR to HSV conversion with hue range 180
    ([RGB2HSV_b]): fixed-point arithmetic on two division tables. *)
Definition COLOR_BGR2HSV (p : Z * Z * Z) : Z * Z * Z :=
  let '(b, g, r) := p in
  let v := Z.max (Z.max b g) r in
  let vmin := Z.min (Z.min b g) r in
  let diff := v - vmin in
  let s := Z.shiftr (diff * sdiv_table v + Z.shiftl 1 (hsv_shift - 1)) hsv_shift in
  let h0 := if v =? r then g - b
            else if v =? g then b - r + 2 * diff
            else r - g + 4 * diff in
  let h1 := Z.shiftr (h0 * hdiv_table180 diff + Z.shiftl 1 (hsv_shift - 1)) hsv_shift in
  let h := if h1 <? 0 then h1 + 180 else h1 in
  (saturate_uchar h, s `mod` 256, v).

(** A stand-in for the 8-bit BGR to Lab conversion, whose tables OpenCV
    fills with floating-point powers and cube roots: lightness from the
    largest channel, neutral chroma.  It only serves to run the model;
    the theorems quantify over the conversion. *)
Definition achromatic_Lab (p : Z * Z * Z) : Z * Z * Z :=
  let '(b, g, r) := p in (Z.max (Z.max b g) r, 128, 128).

End cv2_8u.

(** A world with nothing stored and debugging off. *)
Definition fresh_world : world :=
  mk_world (mk_Params 0 None ".") (mk_Outputs ∅ []) [] [] (λ _, None).

(** A world in which an earlier analysis has stored a measurement and a
    list of figures, with debugging set to print into a directory that
    takes files. *)
Definition stored_world : world :=
  mk_world (mk_Params 7 (Some "print") "out")
    (mk_Outputs {[ "shape_data" := {[ "area" := VInt 42 ]};
                   "color_data" := {[ "bin-number" := VInt 256; "note" := VStr "kept" ]} ]}
       [[]])
    [] [] (λ _, None).

(** The same world without the directory "out". *)
Definition missing_outdir_world : world :=
  mk_world (params stored_world) (outputs stored_world) [] []
    (λ dir, if bool_decide (dir = "out") then Some "FileNotFoundError" else None).

Definition image_1x1 (b g r : Z) : ndarray := mk_ndarray [1; 1; 3]%nat [b; g; r].
Definition mask_1x1 (m : Z) : ndarray := mk_ndarray [1; 1]%nat [m].

(** ** Vocabulary of the statements *)

(** The world right after [params.device += 1]. *)
Definition bump (w : world) : world :=
  mk_world (mk_Params (device (params w) + 1) (debug (params w)) (debug_outdir (params w)))
    (outputs w) (saved w) (printed w) (file_system w).

(** The two checks that end in [fatal_error], by their messages. *)
Definition InvalidInput (e : exn) : Prop :=
  e = RuntimeError "rgb_img must be an RGB image".

Definition InvalidArgument (e : exn) : Prop :=
  ∃ hist_plot_type, e = RuntimeError (plot_type_message hist_plot_type).

(** The four plot types as the spec lists them and as [hist_types] keys
    them. *)
Definition plot_types : list string := ["all"; "rgb"; "lab"; "hsv"].

Definition plot_keys : list string := ["ALL"; "RGB"; "LAB"; "HSV"].

(** A case variant of a plot type: a word of ASCII letters that differs
    from it in the case of letters only. *)
Definition case_variant (s : string) : Prop := ascii_lower s ∈ plot_types.

(** [str.upper] acts on words of ASCII characters as the ASCII mapping. *)
Definition ascii_only (s : string) : Prop :=
  Forall (λ c, (nat_of_ascii c < 128)%nat) (list_ascii_of_string s).

Definition upper_on_ascii (upper : string → string) : Prop :=
  ∀ s, ascii_only s → upper s = ascii_upper s.

(** The debug save of a call with selector [t] is not attempted in [w]
    (no selector, or a debug mode other than "print"), or the directory
    takes the file. *)
Definition save_possible (w : world) (t : option string) : Prop :=
  t ≠ None → debug (params w) = Some "print" →
  file_system w (debug_outdir (params w)) = None.

(** Number of masked-in pixels: mask bytes that are not zero. *)
Definition masked_in (mask : list Z) : Z :=
  Z.of_nat (length (filter (λ m, m ≠ 0) mask)).

Definition sum_hist (hist : list Z) : Z := foldr Z.add 0 hist.

(** A pixel (value, mask byte) raises the total of a histogram of [n] bins
    by one exactly when it is masked in and the lookup table [tab] sends
    its value to a bin inside the histogram. *)
Definition counted (tab : Z → option nat) (n : nat) (p : Z * Z) : bool :=
  negb (p.2 =? 0) && from_option (λ i, bool_decide (i < n)%nat) false (tab p.1).

(** What a successful quantization and a successful histogram compute. *)
Definition quantized (bins : Z) (ch : list Z) : list Z :=
  np.astype_uint8 (np.divide ch (PrimFloat.div (F.of_Z 256) (F.of_Z bins))).

Definition counts_of (bins : Z) (mask ch : list Z) : list Z :=
  cv2.hist_counts bins 0 (C.float (bins - 1)) ch mask.

Definition hist_of (bins : Z) (mask ch : list Z) : list Z :=
  cv2.hist_entry <$> counts_of bins mask ch.

Definition map_channels (f : list Z → list Z) (c : channels) : channels :=
  mk_channels (f (ch_b c)) (f (ch_g c)) (f (ch_r c)) (f (ch_l c)) (f (ch_m c))
    (f (ch_y c)) (f (ch_h c)) (f (ch_s c)) (f (ch_v c)).

(** One item of the Counter written out: the key, as often as its count. *)
Definition expand (p : Z * nat) : list Z := replicate p.2 p.1.

(** The hue observations the loop produces once key 0 is gone. *)
Definition hue_observations (h : list Z) : list Z :=
  hue_loop (sorted_items (Counter.items (delete 0 (Counter.of_iterable h)))).

(** The fields a call leaves under "color_data", over the fields [old]
    that were there before. *)
Definition stored_fields (bins : Z) (bin_values : list Z) (hist_data : channels)
    (circular_mean circular_std : stats.call) (median : float)
    (old : gmap string value) : gmap string value :=
  <["median" := VFloat median]>
  (<["standard-deviation" := VStat circular_std]>
  (<["mean" := VStat circular_mean]>
  (<["value" := VList (ch_v hist_data)]>
  (<["saturation" := VList (ch_s hist_data)]>
  (<["hue" := VList (ch_h hist_data)]>
  (<["blue-yellow" := VList (ch_y hist_data)]>
  (<["green-magenta" := VList (ch_m hist_data)]>
  (<["lightness" := VList (ch_l hist_data)]>
  (<["red" := VList (ch_r hist_data)]>
  (<["green" := VList (ch_g hist_data)]>
  (<["blue" := VList (ch_b hist_data)]>
  (<["bin-values" := VList bin_values]>
  (<["bin-number" := VInt bins]> old))))))))))))).

(** The results of a call that gets through: what [c] holds are the nine
    planes of lines 39-44. *)
Definition results_of (upper : string → string) (c : channels) (mask : ndarray)
    (bins : Z) (t : option string)
  : list string * list value * list ggplot :=
  let hist := map_channels (hist_of bins (flat mask)) (map_channels (quantized bins) c) in
  let temp := hue_observations (ch_h c) in
  (color_header,
   color_data bins (np.arange bins) hist
     (stats.circmean temp 180) (stats.circstd temp 180) (np.median temp),
   make_figures upper (dataset (np.arange bins) hist) bins t).

Definition outputs_of (upper : string → string) (c : channels) (mask : ndarray)
    (bins : Z) (t : option string) (o : Outputs) : Outputs :=
  let hist := map_channels (hist_of bins (flat mask)) (map_channels (quantized bins) c) in
  let temp := hue_observations (ch_h c) in
  mk_Outputs
    (<["color_data" :=
         stored_fields bins (np.arange bins) hist
           (stats.circmean temp 180) (stats.circstd temp 180) (np.median temp)
           (default ∅ (measurements o !! "color_data"))]> (measurements o))
    (images o ++ [make_figures upper (dataset (np.arange bins) hist) bins t]).

(** ** Vocabulary of the further properties *)

(** The pairs (bins, value), with at most 256 bins, for which the double
    division of [quantize] falls just below an exact integer quotient. *)
Definition rounded_down : list (Z * Z) :=
  [(186, 128); (198, 128); (210, 128); (234, 128); (246, 128)].

(** The level of a byte under [bins] bins in integer arithmetic. *)
Definition level (bins v : Z) : Z :=
  if bool_decide ((bins, v) ∈ rounded_down) then (v * bins) `div` 256 - 1
  else (v * bins) `div` 256.

(** The bin of a level in integer terms: its own index, except that the
    top level [bins - 1], the excluded end of the range, has none. *)
Definition bin_of_level (bins j : Z) : option nat :=
  if bool_decide (j < bins - 1) then Some (Z.to_nat j) else None.

(** The pixel at index [i], in the order blue, green, red, and the pixel
    the conversions see there: black where the mask byte is zero. *)
Definition pixel (rgb : ndarray) (i : nat) : Z * Z * Z :=
  (flat rgb !!! (3 * i)%nat, flat rgb !!! (3 * i + 1)%nat,
   flat rgb !!! (3 * i + 2)%nat).

Definition masked_pixel (rgb mask : ndarray) (i : nat) : Z * Z * Z :=
  if flat mask !!! i =? 0 then (0, 0, 0) else pixel rgb i.

(** The channel labels a selector, in upper case, puts into the figure. *)
Definition plotted_labels (key : string) : list string :=
  if bool_decide (key = "RGB") then ["blue"; "green"; "red"]
  else if bool_decide (key = "LAB") then
    ["lightness"; "green-magenta"; "blue-yellow"]
  else if bool_decide (key = "HSV") then ["hue"; "saturation"; "value"]
  else if bool_decide (key = "ALL") then
    ["blue"; "green"; "red"; "lightness"; "green-magenta"; "blue-yellow";
     "hue"; "saturation"; "value"]
  else [].

(** The list reported under a header name. *)
Definition column (hd : list string) (data : list value) (name : string) : list Z :=
  match list_find (λ x, x = name) hd with
  | Some (i, _) => match data !! i with Some (VList l) => l | _ => [] end
  | None => []
  end.

(** The bytes of the masked image and of a conversion of it, and the nine
    planes lines 39-44 take from them for an image of [n] pixels. *)
Definition masked_bytes (rgb mask : ndarray) : list Z :=
  imap (λ i x, if (flat mask !!! (i / 3)%nat) =? 0 then 0
               else Z.land x (flat rgb !!! i))
       (flat rgb).

Definition converted_bytes (code : Z * Z * Z → Z * Z * Z) (n : nat) (data : list Z)
  : list Z :=
  i ← seq 0 n;
  let '(x, y, z) := code (data !!! (3 * i)%nat, data !!! (3 * i + 1)%nat,
                          data !!! (3 * i + 2)%nat) in
  [x; y; z].

Definition planes_of (lab hsv : Z * Z * Z → Z * Z * Z) (rgb mask : ndarray) (n : nat)
  : channels :=
  let masked := masked_bytes rgb mask in
  mk_channels
    (cv2.plane 3 n 0 masked) (cv2.plane 3 n 1 masked) (cv2.plane 3 n 2 masked)
    (cv2.plane 3 n 0 (converted_bytes lab n masked))
    (cv2.plane 3 n 1 (converted_bytes lab n masked))
    (cv2.plane 3 n 2 (converted_bytes lab n masked))
    (cv2.plane 3 n 0 (converted_bytes hsv n masked))
    (cv2.plane 3 n 1 (converted_bytes hsv n masked))
    (cv2.plane 3 n 2 (converted_bytes hsv n masked)).

(** The nine planes in the order of the results, and the nine values the
    planes hold for one pixel. *)
Definition channel_list (c : channels) : list (list Z) :=
  [ch_b c; ch_g c; ch_r c; ch_l c; ch_m c; ch_y c; ch_h c; ch_s c; ch_v c].

Definition components (lab hsv : Z * Z * Z → Z * Z * Z) (p : Z * Z * Z) : list Z :=
  [p.1.1; p.1.2; p.2; (lab p).1.1; (lab p).1.2; (lab p).2;
   (hsv p).1.1; (hsv p).1.2; (hsv p).2].

(** ** The hue observations *)

Section hue.

Implicit Types (h l : list Z) (c : gmap Z nat) (k v : Z).

Lemma Counter_add_lookup c x k :
  Counter.add c x !! k =
    if decide (x = k) then Some (S (default 0%nat (c !! k))) else c !! k.
Proof.
  unfold Counter.add. destruct (decide (x = k)) as [->|].
  - by rewrite lookup_insert_eq.
  - by rewrite lookup_insert_ne.
Qed.

Lemma Counter_foldl_lookup l c k :
  foldl Counter.add c l !! k =
    match count_occ Z.eq_dec l k with
    | O => c !! k
    | S n => Some (S n + default 0%nat (c !! k))%nat
    end.
Proof.
  revert c. induction l as [|x l IH]; intros c; [done|].
  cbn [foldl count_occ]. rewrite IH, Counter_add_lookup.
  destruct (Z.eq_dec x k) as [->|Hne].
  - rewrite decide_True by done.
    destruct (count_occ Z.eq_dec l k); cbn; f_equal; lia.
  - rewrite decide_False by done. done.
Qed.

(** [Counter(h)] maps every value that occurs in [h] to its number of
    occurrences, and holds no other key. *)
Lemma Counter_of_iterable_lookup h k :
  Counter.of_iterable h !! k =
    match count_occ Z.eq_dec h k with
    | O => None
    | S n => Some (S n)
    end.
Proof.
  unfold Counter.of_iterable. rewrite Counter_foldl_lookup, lookup_empty.
  destruct (count_occ Z.eq_dec h k); cbn; [done|f_equal; lia].
Qed.

(** [del c[0]] never fails on a Counter: the key is dropped if present. *)
Lemma Counter_delitem_total k c : Counter.delitem k c = Return (delete k c).
Proof.
  unfold Counter.delitem, Counter.dict_delitem. case_bool_decide as Hk.
  - destruct Hk as [n ->]. done.
  - f_equal. symmetry. apply delete_id. by apply eq_None_not_Some.
Qed.

Lemma temp_hue_list_Return h : temp_hue_list h = Return (hue_observations h).
Proof. unfold temp_hue_list. by rewrite Counter_delitem_total. Qed.

Lemma hue_loop_foldl (ordered : list (Z * nat)) (acc : list Z) (idx : list nat) :
  foldl (λ temp i, temp ++ replicate ((ordered.*2) !!! i) ((ordered.*1) !!! i)) acc idx
  = acc ++ (i ← idx; replicate ((ordered.*2) !!! i) ((ordered.*1) !!! i)).
Proof.
  revert acc. induction idx as [|i idx IH]; intros acc; cbn.
  - by rewrite app_nil_r.
  - rewrite IH. by rewrite <- app_assoc.
Qed.

(** The index loop visits the items in order and writes each key as often
    as its count says. *)
Lemma hue_loop_bind (ordered : list (Z * nat)) :
  hue_loop ordered = ordered ≫= expand.
Proof.
  unfold hue_loop. rewrite hue_loop_foldl. cbn [app].
  assert (∀ pre o, ordered = pre ++ o →
    (i ← seq (length pre) (length o);
       replicate ((ordered.*2) !!! i) ((ordered.*1) !!! i)) = o ≫= expand) as H.
  { intros pre o. revert pre. induction o as [|p o IH]; intros pre ->; [done|].
    cbn [length seq]. rewrite !bind_cons. f_equal.
    - rewrite !list_lookup_total_alt, !list_lookup_fmap.
      rewrite lookup_app_r by lia. rewrite Nat.sub_diag. done.
    - specialize (IH (pre ++ [p])). rewrite length_app in IH. cbn in IH.
      rewrite Nat.add_1_r in IH. apply IH. by rewrite <- app_assoc. }
  apply (H []). done.
Qed.

Lemma count_occ_replicate n k v :
  count_occ Z.eq_dec (replicate n k) v = if decide (k = v) then n else 0%nat.
Proof.
  induction n as [|n IH]; cbn [replicate count_occ].
  - by destruct (decide (k = v)).
  - rewrite IH. destruct (Z.eq_dec k v), (decide (k = v)); done.
Qed.

Lemma count_occ_Permutation l1 l2 v :
  l1 ≡ₚ l2 → count_occ Z.eq_dec l1 v = count_occ Z.eq_dec l2 v.
Proof. intros H. by apply (Permutation_count_occ Z.eq_dec). Qed.

Lemma count_occ_expand_items c v :
  count_occ Z.eq_dec (map_to_list c ≫= expand) v = default 0%nat (c !! v).
Proof.
  induction c as [|k n c Hk IH] using map_ind.
  - by rewrite map_to_list_empty, lookup_empty.
  - rewrite (count_occ_Permutation
               (map_to_list (<[k:=n]> c) ≫= expand)
               (((k, n) :: map_to_list c) ≫= expand)).
    2:{ by rewrite map_to_list_insert. }
    rewrite bind_cons, count_occ_app, IH. unfold expand at 1. cbn [fst snd].
    rewrite count_occ_replicate. destruct (decide (k = v)) as [->|Hne].
    + rewrite lookup_insert_eq, Hk. cbn. lia.
    + by rewrite lookup_insert_ne.
Qed.

(** Every non-zero hue appears in the observations as often as in the
    channel; hue 0 does not appear. *)
Lemma hue_observations_count h v :
  count_occ Z.eq_dec (hue_observations h) v =
    if decide (v = 0) then 0%nat else count_occ Z.eq_dec h v.
Proof.
  unfold hue_observations, sorted_items, Counter.items. rewrite hue_loop_bind.
  rewrite (count_occ_Permutation
             (merge_sort key_le (map_to_list (delete 0 (Counter.of_iterable h))) ≫= expand)
             (map_to_list (delete 0 (Counter.of_iterable h)) ≫= expand)).
  2:{ by rewrite merge_sort_Permutation. }
  rewrite count_occ_expand_items. destruct (decide (v = 0)) as [->|Hne].
  - by rewrite lookup_delete_eq.
  - rewrite lookup_delete_ne by done. rewrite Counter_of_iterable_lookup.
    by destruct (count_occ Z.eq_dec h v).
Qed.

#[local] Instance key_le_trans : Transitive key_le.
Proof. intros x y z. unfold key_le. lia. Qed.

#[local] Instance key_le_total : Total key_le.
Proof. intros x y. unfold key_le. lia. Qed.

Lemma StronglySorted_replicate n k : StronglySorted Z.le (replicate n k).
Proof.
  induction n as [|n IH]; cbn [replicate]; constructor; [done|].
  apply Forall_replicate. lia.
Qed.

Lemma StronglySorted_expand (items : list (Z * nat)) :
  StronglySorted key_le items → StronglySorted Z.le (items ≫= expand).
Proof.
  induction items as [|p items IH]; intros Hs; [constructor|].
  apply StronglySorted_cons in Hs as [Hp Hs]. rewrite bind_cons.
  apply StronglySorted_app_2; [|apply StronglySorted_replicate|by apply IH].
  intros x1 x2 Hx1 Hx2. apply elem_of_replicate_inv in Hx1 as ->.
  apply list_elem_of_bind in Hx2 as (q & Hx2 & Hq).
  apply elem_of_replicate_inv in Hx2 as ->.
  rewrite Forall_forall in Hp. by apply Hp.
Qed.

(** The observations come out in ascending order. *)
Lemma hue_observations_sorted h : StronglySorted Z.le (hue_observations h).
Proof.
  unfold hue_observations, sorted_items. rewrite hue_loop_bind.
  apply StronglySorted_expand, StronglySorted_merge_sort; apply _.
Qed.

(** A channel of zeros leaves no observation. *)
Lemma hue_observations_all_zero h :
  Forall (λ x, x = 0) h → hue_observations h = [].
Proof.
  intros Hz. apply (count_occ_inv_nil Z.eq_dec). intros v.
  rewrite hue_observations_count. case_decide as Hv; [done|].
  apply count_occ_not_In. intros Hin. rewrite Forall_forall in Hz.
  apply Hv, Hz. by apply list_elem_of_In.
Qed.

(** A channel without zeros is observed in full. *)
Lemma hue_observations_no_zero h :
  0 ∉ h → hue_observations h ≡ₚ h.
Proof.
  intros Hz. apply (Permutation_count_occ Z.eq_dec). intros v.
  rewrite hue_observations_count. case_decide as Hv; [subst v|done].
  symmetry. apply count_occ_not_In. intros Hin. by apply Hz, list_elem_of_In.
Qed.

End hue.

(** ** Quantization and histograms *)

Lemma quantize_Return ch bins :
  bins ≠ 0 → quantize ch bins = Return (quantized bins ch).
Proof.
  intros Hb. unfold quantize, true_div, quantized.
  destruct (bins =? 0) eqn:E; [lia|done].
Qed.

Lemma quantize_zero ch : quantize ch 0 = Raise (ZeroDivisionError "division by zero").
Proof. done. Qed.

Lemma norm_channels_Return c bins :
  bins ≠ 0 → norm_channels c bins = Return (map_channels (quantized bins) c).
Proof. intros Hb. unfold norm_channels. by rewrite !quantize_Return. Qed.

Lemma norm_channels_zero c :
  norm_channels c 0 = Raise (ZeroDivisionError "division by zero").
Proof. done. Qed.

Lemma round_half_even_ge n d : n `div` d ≤ C.round_half_even n d.
Proof.
  unfold C.round_half_even.
  destruct (2 * (n `mod` d) <? d); [lia|].
  destruct (d <? 2 * (n `mod` d)); [lia|].
  destruct (Z.even (n `div` d)); lia.
Qed.

(** Integers of up to 24 bits are 32-bit floats. *)
Lemma C_float_small z : Z.abs z ≤ 2 ^ 24 → C.float z = z.
Proof.
  intros Hz. destruct (decide (Z.abs z = 2 ^ 24)) as [Heq|Hne].
  { destruct (Z.abs_spec z) as [[_ Ha]|[_ Ha]]; rewrite Ha in Heq.
    - by subst z.
    - assert (z = - 2 ^ 24) as -> by lia. done. }
  unfold C.float.
  assert (Z.log2 (Z.abs z) - 23 ≤ 0) as He.
  { destruct (decide (Z.abs z = 0)) as [->|Hnz]; [done|].
    assert (Z.log2 (Z.abs z) < 24) by (apply Z.log2_lt_pow2; lia). lia. }
  by rewrite (proj2 (Z.leb_le _ _) He).
Qed.

Lemma C_float_pos z : 0 < z → 0 < C.float z.
Proof.
  intros Hz. unfold C.float. rewrite Z.abs_eq, Z.sgn_pos by lia.
  destruct (_ <=? 0) eqn:He; [done|]. apply Z.leb_gt in He.
  pose proof (round_half_even_ge z (2 ^ (Z.log2 z - 23))) as Hr.
  assert (0 < 2 ^ (Z.log2 z - 23)) as Hp by (apply Z.pow_pos_nonneg; lia).
  assert (2 ^ (Z.log2 z - 23) ≤ z) as Hle.
  { etrans; [|apply Z.log2_spec; lia]. apply Z.pow_le_mono_r; lia. }
  assert (1 ≤ z `div` 2 ^ (Z.log2 z - 23)) by (apply Z.div_le_lower_bound; lia).
  nia.
Qed.

(** Counts of up to 2^24 are reported as they are. *)
Lemma hist_entry_small n : 0 ≤ n ≤ 2 ^ 24 → cv2.hist_entry n = n.
Proof.
  intros Hn. unfold cv2.hist_entry, C.int.
  rewrite Z.mod_small by lia. rewrite C_float_small by lia. lia.
Qed.

Lemma calcHist_Return image mask bins :
  1 < bins ≤ C.INT_MAX →
  cv2.calcHist image mask bins (0, bins - 1) = Return (hist_of bins mask image).
Proof.
  intros Hb. unfold cv2.calcHist, hist_of, counts_of. cbn [fst snd].
  destruct (C.INT_MAX <? bins) eqn:E0; [lia|].
  destruct (0 <? bins) eqn:E1; [|lia].
  pose proof (C_float_pos (bins - 1)) as Hp. change (C.float 0) with 0.
  destruct (0 <? C.float (bins - 1)) eqn:E2; [done|lia].
Qed.

Lemma calcHist_Raise image mask bins :
  bins ≤ 1 ∨ C.INT_MAX < bins →
  ∃ msg, cv2.calcHist image mask bins (0, bins - 1) = Raise (cv2_error msg).
Proof.
  intros Hb. unfold cv2.calcHist. cbn [fst snd].
  destruct (C.INT_MAX <? bins) eqn:E0; [by eexists|].
  destruct Hb as [Hb|Hb]; [|lia].
  destruct (0 <? bins) eqn:E1; [|by eexists].
  assert (bins = 1) as -> by lia. by eexists.
Qed.

Lemma histograms_Return norm mask bins :
  1 < bins ≤ C.INT_MAX →
  histograms norm mask bins = Return (map_channels (hist_of bins (flat mask)) norm).
Proof. intros Hb. unfold histograms. by rewrite !calcHist_Return. Qed.

Lemma histograms_Raise norm mask bins :
  bins ≤ 1 ∨ C.INT_MAX < bins →
  ∃ msg, histograms norm mask bins = Raise (cv2_error msg).
Proof.
  intros Hb. unfold histograms.
  destruct (calcHist_Raise (ch_b norm) (flat mask) bins Hb) as [msg ->]. by eexists.
Qed.

Section accumulation.

Variable tab : Z → option nat.

Implicit Types (H : list Z) (ps : list (Z * Z)).

Lemma hist_step_length H p : length (cv2.hist_step tab H p) = length H.
Proof.
  destruct p as [v m]. unfold cv2.hist_step.
  destruct (m =? 0); [done|]. destruct (tab v); [|done]. by rewrite length_alter.
Qed.

Lemma hist_foldl_length ps H : length (foldl (cv2.hist_step tab) H ps) = length H.
Proof.
  revert H. induction ps as [|p ps IH]; intros H; [done|].
  cbn [foldl]. by rewrite IH, hist_step_length.
Qed.

Lemma hist_step_nonneg H p :
  Forall (λ x, 0 ≤ x) H → Forall (λ x, 0 ≤ x) (cv2.hist_step tab H p).
Proof.
  intros HH. destruct p as [v m]. unfold cv2.hist_step.
  destruct (m =? 0); [done|]. destruct (tab v) as [i|]; [|done].
  apply Forall_alter; [done|]. intros x _ Hx. lia.
Qed.

Lemma hist_foldl_nonneg ps H :
  Forall (λ x, 0 ≤ x) H → Forall (λ x, 0 ≤ x) (foldl (cv2.hist_step tab) H ps).
Proof.
  revert H. induction ps as [|p ps IH]; intros H HH; [done|].
  cbn [foldl]. by apply IH, hist_step_nonneg.
Qed.

Lemma sum_hist_cons x H : sum_hist (x :: H) = x + sum_hist H.
Proof. done. Qed.

Lemma sum_hist_alter_succ H i :
  sum_hist (alter Z.succ i H) = sum_hist H + (if decide (i < length H)%nat then 1 else 0).
Proof.
  revert i. induction H as [|x H IH]; intros i.
  { destruct i; cbn; rewrite decide_False; cbn; lia. }
  destruct i as [|i]; cbn [alter list_alter length]; rewrite !sum_hist_cons.
  - rewrite decide_True by lia. lia.
  - change (list_alter Z.succ i H) with (alter Z.succ i H). rewrite IH.
    destruct (decide (i < length H)%nat), (decide (S i < S (length H))%nat); lia.
Qed.

Lemma hist_step_sum H p :
  sum_hist (cv2.hist_step tab H p) =
    sum_hist H + (if counted tab (length H) p then 1 else 0).
Proof.
  destruct p as [v m]. unfold cv2.hist_step, counted. cbn [fst snd].
  destruct (m =? 0); cbn [negb andb]; [lia|].
  destruct (tab v) as [i|]; cbn [from_option]; [|lia].
  rewrite sum_hist_alter_succ. destruct (decide (i < length H)%nat).
  - by rewrite bool_decide_true.
  - by rewrite bool_decide_false.
Qed.

Lemma hist_foldl_sum ps H :
  sum_hist (foldl (cv2.hist_step tab) H ps) =
    sum_hist H + Z.of_nat (length (filter (λ p, counted tab (length H) p = true) ps)).
Proof.
  revert H. induction ps as [|p ps IH]; intros H.
  { rewrite filter_nil. cbn [foldl length]. lia. }
  cbn [foldl]. rewrite IH, hist_step_sum, hist_step_length, filter_cons.
  destruct (counted tab (length H) p) eqn:E.
  - rewrite decide_True by done. cbn [length]. lia.
  - rewrite decide_False by (by intros ?). lia.
Qed.

(** Pixels whose mask byte is zero leave the histogram as it is. *)
Lemma hist_foldl_masked_out ps H :
  foldl (cv2.hist_step tab) H ps =
  foldl (cv2.hist_step tab) H (filter (λ p, p.2 ≠ 0) ps).
Proof.
  revert H. induction ps as [|[v m] ps IH]; intros H; [done|].
  rewrite filter_cons. cbn [foldl snd]. destruct (decide (m ≠ 0)) as [Hm|Hm].
  - cbn [foldl]. apply IH.
  - assert (m = 0) as -> by lia. cbn [cv2.hist_step]. apply IH.
Qed.

End accumulation.

Lemma sum_hist_zeros n : sum_hist (replicate n 0) = 0.
Proof. induction n as [|n IH]; [done|]. cbn [replicate]. rewrite sum_hist_cons. lia. Qed.

Lemma counts_of_length bins mask ch : length (counts_of bins mask ch) = Z.to_nat bins.
Proof.
  unfold counts_of, cv2.hist_counts. by rewrite hist_foldl_length, length_replicate.
Qed.

Lemma counts_of_nonneg bins mask ch : Forall (λ x, 0 ≤ x) (counts_of bins mask ch).
Proof.
  unfold counts_of, cv2.hist_counts. apply hist_foldl_nonneg, Forall_replicate. lia.
Qed.

Lemma masked_pairs_le (P : Z → Prop) {Pdec : ∀ v, Decision (P v)} (ch mask : list Z) :
  (length (filter (λ p : Z * Z, p.2 ≠ 0%Z ∧ P p.1) (zip ch mask))
   ≤ length (filter (λ m, m ≠ 0%Z) mask))%nat.
Proof.
  revert mask. induction ch as [|v ch IH]; intros [|m mask]; cbn [zip zip_with];
    rewrite ?filter_nil; cbn [length]; try lia.
  rewrite !filter_cons. cbn [fst snd]. specialize (IH mask).
  destruct (decide (m ≠ 0 ∧ P v)) as [[Hm _]|Hn].
  - rewrite decide_True by done. cbn [length]. lia.
  - destruct (decide (m ≠ 0)); cbn [length]; lia.
Qed.

(** No histogram counts more than the masked-in pixels. *)
Lemma counts_of_sum_le bins mask ch : sum_hist (counts_of bins mask ch) ≤ masked_in mask.
Proof.
  unfold counts_of, cv2.hist_counts.
  rewrite hist_foldl_sum, sum_hist_zeros, length_replicate, Z.add_0_l.
  unfold masked_in. apply inj_le.
  etrans; [|apply (masked_pairs_le
                     (λ v, from_option (λ i, bool_decide (i < Z.to_nat bins)%nat) false
                             (cv2.hist_bin bins 0 (C.float (bins - 1)) v) = true))].
  apply Nat.eq_le_incl. f_equal. apply list_filter_iff. intros [v m].
  unfold counted. cbn [fst snd]. by rewrite andb_true_iff, negb_true_iff, Z.eqb_neq.
Qed.

Lemma sum_hist_elem (l : list Z) x :
  Forall (λ y, 0 ≤ y) l → x ∈ l → x ≤ sum_hist l.
Proof.
  induction 1 as [|y l Hy Hl IH]; [by intros ?%elem_of_nil|].
  rewrite sum_hist_cons. assert (0 ≤ sum_hist l).
  { clear -Hl. induction Hl as [|z l Hz _ IH]; [done|]. rewrite sum_hist_cons. lia. }
  intros [->|Hin]%elem_of_cons; [lia|]. specialize (IH Hin). lia.
Qed.

Lemma hist_of_length bins mask ch : length (hist_of bins mask ch) = Z.to_nat bins.
Proof. unfold hist_of. by rewrite length_fmap, counts_of_length. Qed.

(** With up to 2^24 masked-in pixels the entries are the counts. *)
Lemma hist_of_exact bins mask ch :
  masked_in mask ≤ 2 ^ 24 → hist_of bins mask ch = counts_of bins mask ch.
Proof.
  intros Hm. unfold hist_of.
  pose proof (counts_of_nonneg bins mask ch) as Hn.
  pose proof (counts_of_sum_le bins mask ch) as Hs.
  assert (Forall (λ x, cv2.hist_entry x = x) (counts_of bins mask ch)) as Hall.
  { apply Forall_forall. intros x Hx. apply hist_entry_small.
    pose proof (sum_hist_elem _ x Hn Hx). rewrite Forall_forall in Hn.
    specialize (Hn x Hx). lia. }
  clear -Hall. induction Hall as [|x l Hx _ IH]; [done|].
  cbn [fmap list_fmap]. by rewrite Hx, IH.
Qed.

(** ** Effects on the world *)

Lemma store_run category field v fields w :
  measurements (outputs w) !! category = Some fields →
  store category field v w =
    (mk_world (params w)
       (mk_Outputs (<[category := <[field := v]> fields]> (measurements (outputs w)))
          (images (outputs w)))
       (saved w) (printed w) (file_system w), Return tt).
Proof. intros H. unfold store, mbind, M_bind, get_world. by rewrite H. Qed.

Lemma ensure_category_run category w :
  ensure_category category w =
    (mk_world (params w)
       (mk_Outputs
          (<[category := default ∅ (measurements (outputs w) !! category)]>
             (measurements (outputs w)))
          (images (outputs w)))
       (saved w) (printed w) (file_system w), Return tt).
Proof.
  unfold ensure_category, mbind, M_bind, get_world.
  destruct (measurements (outputs w) !! category) as [fields|] eqn:E; cbn [default].
  - rewrite insert_id by done. by destruct w as [? []].
  - done.
Qed.

(** Lines 231-250 always succeed; they touch [outputs] only. *)
Lemma store_results_run bins bin_values hist_data cm cs med figs w :
  store_results bins bin_values hist_data cm cs med figs w =
    (mk_world (params w)
       (mk_Outputs
          (<["color_data" :=
               stored_fields bins bin_values hist_data cm cs med
                 (default ∅ (measurements (outputs w) !! "color_data"))]>
             (measurements (outputs w)))
          (images (outputs w) ++ [figs]))
       (saved w) (printed w) (file_system w), Return tt).
Proof.
  unfold store_results.
  repeat (unfold mbind at 1; unfold M_bind at 1;
          first [ rewrite ensure_category_run
                | erewrite store_run by (cbn [outputs measurements]; apply lookup_insert_eq) ];
          cbn [outputs measurements images params saved printed file_system];
          rewrite ?insert_insert_eq).
  done.
Qed.

Lemma debug_output_None fig w : debug_output None fig w = (w, Return tt).
Proof. done. Qed.

(** Lines 225-229 where the save, if any, is possible. *)
Lemma debug_output_run t fig w :
  save_possible w t →
  debug_output t (Some fig) w =
    (mk_world (params w) (outputs w)
       (saved w ++
          (if bool_decide (is_Some t ∧ debug (params w) = Some "print")
           then [(path_join (debug_outdir (params w))
                    (pretty (device (params w)) +:+ "_analyze_color_hist.png"), fig)]
           else []))
       (printed w ++
          (if bool_decide (is_Some t ∧ debug (params w) = Some "plot")
           then [fig] else []))
       (file_system w),
     Return tt).
Proof.
  intros Hsave. unfold debug_output. destruct t as [s|].
  - unfold mbind, M_bind, get_world, read_hist_fig, mret, M_ret, save_figure, print_figure.
    destruct (decide (debug (params w) = Some "print")) as [Hp|Hp].
    + rewrite !bool_decide_true by (try split; done).
      rewrite bool_decide_false by (rewrite Hp; by intros [_ [=]]).
      rewrite (Hsave ltac:(done) Hp). by rewrite app_nil_r.
    + rewrite (bool_decide_false (_ = Some "print")) by done.
      rewrite (bool_decide_false (_ ∧ _ = Some "print")) by (by intros [_ ?]).
      destruct (decide (debug (params w) = Some "plot")) as [Hq|Hq].
      * rewrite !bool_decide_true by (try split; done). by rewrite app_nil_r.
      * rewrite (bool_decide_false (_ = Some "plot")) by done.
        rewrite (bool_decide_false (_ ∧ _ = Some "plot")) by (by intros [_ ?]).
        rewrite !app_nil_r. by destruct w.
  - rewrite !bool_decide_false by (intros [[? [=]] _]).
    rewrite !app_nil_r. by destruct w.
Qed.

Lemma debug_output_frame t fig w :
  params (debug_output t fig w).1 = params w ∧
  outputs (debug_output t fig w).1 = outputs w ∧
  file_system (debug_output t fig w).1 = file_system w.
Proof.
  unfold debug_output. destruct t as [t|]; [|done].
  unfold mbind, M_bind, get_world, read_hist_fig, save_figure.
  repeat case_bool_decide; destruct fig; try done.
  cbn. by destruct (file_system w _).
Qed.

Lemma debug_output_Return t fig w :
  (t = None ∨ is_Some fig) → save_possible w t →
  ∃ w', debug_output t fig w = (w', Return tt).
Proof.
  intros [-> | [f ->]] Hsave; [by eexists|].
  rewrite debug_output_run by done. by eexists.
Qed.

(** Where lines 225-229 return, the save was possible. *)
Lemma debug_output_Return_inv t fig w w' :
  debug_output t fig w = (w', Return tt) → save_possible w t.
Proof.
  unfold debug_output, save_possible. destruct t as [t|]; [|done].
  unfold mbind, M_bind, get_world, read_hist_fig, save_figure, raise.
  intros Hrun _ Hp. rewrite bool_decide_true in Hrun by done.
  destruct fig; [|done]. cbn in Hrun. by destruct (file_system w _).
Qed.

(** Lines 225-229 raise on a missing figure or on a failing save, and
    then leave the world as it is. *)
Lemma debug_output_exn t fig w w' e :
  debug_output t fig w = (w', Raise e) →
  w' = w ∧ (e = NameError "hist_fig" ∨ ∃ kind filename, e = OSError kind filename).
Proof.
  unfold debug_output. destruct t as [t|]; [|done].
  unfold mbind, M_bind, get_world, read_hist_fig, save_figure, print_figure,
    raise, mret, M_ret.
  repeat case_bool_decide; destruct fig; cbn; try destruct (file_system w _);
    intros Hrun; inversion Hrun; subst; eauto.
Qed.

(** ** The plot-type selector *)

Lemma hist_types_None k :
  hist_types !! k = None ↔ k ≠ "ALL" ∧ k ≠ "RGB" ∧ k ≠ "LAB" ∧ k ≠ "HSV".
Proof.
  unfold hist_types. rewrite !lookup_insert_None, lookup_singleton_None.
  intuition congruence.
Qed.

Section selector.

Variable upper : string → string.

Lemma plot_type_rejected_false t :
  plot_type_rejected upper t = false ↔
  t = None ∨ ∃ s, t = Some s ∧ upper s ∈ plot_keys.
Proof.
  unfold plot_keys. destruct t as [s|]; cbn [plot_type_rejected]; [|naive_solver].
  rewrite bool_decide_eq_false, hist_types_None. split.
  - intros Hn. right. exists s. split; [done|].
    rewrite !elem_of_cons.
    destruct (decide (upper s = "ALL")), (decide (upper s = "RGB")),
      (decide (upper s = "LAB")), (decide (upper s = "HSV")); tauto.
  - intros [|(s' & [= <-] & Hin)]; [done|].
    rewrite !elem_of_cons, elem_of_nil in Hin. tauto.
Qed.

Lemma plot_type_rejected_true s :
  plot_type_rejected upper (Some s) = true ↔ upper s ∉ plot_keys.
Proof.
  rewrite <- not_false_iff_true, plot_type_rejected_false. split.
  - intros Hn Hin. apply Hn. right. by exists s.
  - intros Hn [|(s' & [= <-] & Hin)]; done.
Qed.

(** One figure is made for an accepted selector, none without a selector. *)
Lemma make_figures_length d bins t :
  plot_type_rejected upper t = false →
  length (make_figures upper d bins t)
  = match t with Some _ => 1%nat | None => 0%nat end.
Proof.
  intros Ht. apply plot_type_rejected_false in Ht as [->|(s & -> & Hin)]; [done|].
  unfold make_figures. unfold plot_keys in Hin.
  rewrite !elem_of_cons, elem_of_nil in Hin.
  repeat case_bool_decide; try done. tauto.
Qed.

End selector.

Lemma ascii_upper_lower_char c : ascii_upper_char (ascii_lower_char c) = ascii_upper_char c.
Proof. by destruct c as [[] [] [] [] [] [] [] []]. Qed.

Lemma ascii_lower_upper_char c : ascii_lower_char (ascii_upper_char c) = ascii_lower_char c.
Proof. by destruct c as [[] [] [] [] [] [] [] []]. Qed.

Lemma ascii_upper_lower s : ascii_upper (ascii_lower s) = ascii_upper s.
Proof.
  induction s as [|c s IH]; [done|]. cbn. by rewrite IH, ascii_upper_lower_char.
Qed.

Lemma ascii_lower_upper s : ascii_lower (ascii_upper s) = ascii_lower s.
Proof.
  induction s as [|c s IH]; [done|]. cbn. by rewrite IH, ascii_lower_upper_char.
Qed.

(** On the ASCII mappings, the upper-case form is a key exactly when the
    lower-case form is a plot type. *)
Lemma ascii_upper_in_keys s : ascii_upper s ∈ plot_keys ↔ ascii_lower s ∈ plot_types.
Proof.
  unfold plot_keys, plot_types. rewrite !elem_of_cons, !elem_of_nil. split.
  - intros H. rewrite <- (ascii_lower_upper s).
    destruct H as [-> | [-> | [-> | [-> | []]]]]; cbn; tauto.
  - intros H. rewrite <- (ascii_upper_lower s).
    destruct H as [-> | [-> | [-> | [-> | []]]]]; cbn; tauto.
Qed.

Lemma ascii_lower_char_ascii c :
  (nat_of_ascii (ascii_lower_char c) < 128)%nat → (nat_of_ascii c < 128)%nat.
Proof.
  rewrite <- !Nat.ltb_lt. destruct c as [[] [] [] [] [] [] [] []]; vm_compute; done.
Qed.

Lemma ascii_lower_ascii_only s : ascii_only (ascii_lower s) → ascii_only s.
Proof.
  unfold ascii_only. induction s as [|c s IH]; [done|].
  cbn [ascii_lower list_ascii_of_string]. intros [Hc Hs]%Forall_cons.
  constructor; [by apply ascii_lower_char_ascii|by apply IH].
Qed.

(** A case variant of a plot type is a word of ASCII letters. *)
Lemma case_variant_ascii_only s : case_variant s → ascii_only s.
Proof.
  unfold case_variant, plot_types. rewrite !elem_of_cons, elem_of_nil.
  intros H. apply ascii_lower_ascii_only.
  destruct H as [-> | [-> | [-> | [-> | []]]]];
    unfold ascii_only; cbn [ascii_lower list_ascii_of_string];
    repeat constructor; apply Nat.ltb_lt; vm_compute; done.
Qed.

(** An upper-casing that is the ASCII one on ASCII words sends every case
    variant of a plot type to its key. *)
Lemma case_variant_key upper s :
  upper_on_ascii upper → case_variant s → upper s ∈ plot_keys.
Proof.
  intros Hup Hs. rewrite Hup by by apply case_variant_ascii_only.
  by apply ascii_upper_in_keys.
Qed.

Lemma py_upper_on_ascii : upper_on_ascii py.upper.
Proof.
  intros s. unfold ascii_only. induction s as [|c s IH]; [done|].
  cbn [list_ascii_of_string]. intros [Hc Hs]%Forall_cons.
  destruct c as [b0 b1 b2 b3 b4 b5 b6 []].
  { exfalso. apply Nat.ltb_lt in Hc. revert Hc.
    destruct b0, b1, b2, b3, b4, b5, b6; vm_compute; done. }
  destruct b0, b1, b2, b3, b4, b5, b6; cbn [py.upper ascii_upper]; f_equal; by apply IH.
Qed.

Lemma plot_type_message_head t :
  ∃ rest, plot_type_message t = String "T"%char rest.
Proof. unfold plot_type_message. cbn. by eexists. Qed.

Lemma plot_type_message_not_rgb t :
  plot_type_message t ≠ "rgb_img must be an RGB image".
Proof. destruct (plot_type_message_head t) as [rest ->]. done. Qed.

(** ** Channels *)

Section channels.

Variables lab hsv : Z * Z * Z → Z * Z * Z.

Lemma outcome_bind_Return {A B} (a : A) (f : A → outcome B) : (Return a ≫= f) = f a.
Proof. reflexivity. Qed.

Lemma bitwise_and_run rgb mask h w :
  shape rgb = [h; w; 3%nat] → cv2.size_8UC1 mask = Some (h, w) →
  cv2.bitwise_and rgb rgb mask = Return (mk_ndarray [h; w; 3%nat] (masked_bytes rgb mask)).
Proof.
  intros Hs Hm. unfold cv2.bitwise_and. rewrite Hs, Hm.
  by rewrite bool_decide_true.
Qed.

Lemma split_run h w data :
  (0 < h * w)%nat →
  cv2.split (mk_ndarray [h; w; 3%nat] data)
  = [cv2.plane 3 (h * w) 0 data; cv2.plane 3 (h * w) 1 data; cv2.plane 3 (h * w) 2 data].
Proof.
  intros Hn. unfold cv2.split. cbn [shape flat].
  destruct (h * w =? 0)%nat eqn:E; [apply Nat.eqb_eq in E; lia|done].
Qed.

Lemma split_nonempty h w c data :
  (h * w ≠ 0)%nat →
  cv2.split (mk_ndarray [h; w; c] data)
  = (λ k, cv2.plane c (h * w) k data) <$> seq 0 c.
Proof.
  intros Hn. unfold cv2.split. cbn [shape flat].
  by rewrite (proj2 (Nat.eqb_neq _ _) Hn).
Qed.

Lemma split_empty h w c data :
  (h * w = 0)%nat → cv2.split (mk_ndarray [h; w; c] data) = [].
Proof. intros Hn. unfold cv2.split. cbn [shape]. by rewrite Hn. Qed.

Lemma cvtColor_run h w data code :
  cv2.cvtColor (mk_ndarray [h; w; 3%nat] data) code
  = Return (mk_ndarray [h; w; 3%nat] (converted_bytes code (h * w) data)).
Proof. reflexivity. Qed.

(** Lines 39-44 succeed on an (h, w, 3) image that is not empty, with a
    mask of that height and width. *)
Lemma split_channels_planes rgb mask h w :
  shape rgb = [h; w; 3%nat] → cv2.size_8UC1 mask = Some (h, w) → (0 < h * w)%nat →
  split_channels lab hsv rgb mask = Return (planes_of lab hsv rgb mask (h * w)).
Proof.
  intros Hs Hm Hn. unfold split_channels.
  rewrite (bitwise_and_run _ _ h w), outcome_bind_Return by done.
  rewrite !cvtColor_run.
  repeat first [ rewrite outcome_bind_Return | rewrite split_run by done
               | progress cbn [unpack3] | progress cbv beta iota ].
  reflexivity.
Qed.

Lemma split_channels_Return rgb mask h w :
  shape rgb = [h; w; 3%nat] → cv2.size_8UC1 mask = Some (h, w) → (0 < h * w)%nat →
  ∃ c, split_channels lab hsv rgb mask = Return c.
Proof. intros Hs Hm Hn. rewrite (split_channels_planes _ _ h w) by done. by eexists. Qed.

(** On an empty image [cv2.split] hands back nothing to unpack. *)
Lemma split_channels_empty rgb mask h w :
  shape rgb = [h; w; 3%nat] → cv2.size_8UC1 mask = Some (h, w) → (h * w = 0)%nat →
  split_channels lab hsv rgb mask
  = Raise (ValueError "not enough values to unpack (expected 3, got 0)").
Proof.
  intros Hs Hm Hn. unfold split_channels.
  rewrite (bitwise_and_run _ _ h w), outcome_bind_Return by done.
  rewrite split_empty by done. reflexivity.
Qed.

(** They succeed on no other shapes. *)
Lemma split_channels_shape rgb mask c :
  split_channels lab hsv rgb mask = Return c →
  ∃ h w, shape rgb = [h; w; 3%nat] ∧ cv2.size_8UC1 mask = Some (h, w) ∧
         (0 < h * w)%nat.
Proof.
  unfold split_channels, cv2.bitwise_and.
  destruct (shape rgb) as [|h [|w [|ch [|]]]] eqn:Hs; try done.
  destruct (cv2.size_8UC1 mask) as [[h' w']|] eqn:Hm; try done.
  case_bool_decide as Hd; [|done]. destruct Hd as (_ & -> & ->).
  rewrite outcome_bind_Return.
  destruct (decide (h * w = 0)%nat) as [Hn|Hn]; [by rewrite split_empty|].
  rewrite split_nonempty by done.
  destruct ch as [|[|[|[|ch]]]]; try done. intros _. exists h, w. repeat split; lia.
Qed.

(** The libraries raise their own exceptions, never [fatal_error]'s. *)
Lemma split_channels_exn rgb mask e :
  split_channels lab hsv rgb mask = Raise e → ∀ msg, e ≠ RuntimeError msg.
Proof.
  intros H msg ->. revert H. unfold split_channels, cv2.bitwise_and.
  destruct (shape rgb) as [|h [|w [|ch [|]]]] eqn:Hs; try done;
  destruct (cv2.size_8UC1 mask) as [[h' w']|] eqn:Hm; try done.
  case_bool_decide as Hd; [|done]. destruct Hd as (_ & -> & ->).
  rewrite outcome_bind_Return.
  destruct (decide (h * w = 0)%nat) as [Hn|Hn]; [by rewrite split_empty|].
  destruct ch as [|[|[|[|ch]]]].
  4:{ rewrite !cvtColor_run.
      repeat first [ rewrite outcome_bind_Return | rewrite split_run by lia
                   | progress cbn [unpack3] | progress cbv beta iota ].
      done. }
  all: rewrite split_nonempty by done; done.
Qed.

End channels.

(** ** The call as a whole *)

Section call.

Variables lab hsv : Z * Z * Z → Z * Z * Z.
Variable upper : string → string.

(** The monadic program, step by step. *)
Lemma analyze_color_unfold rgb mask bins t w :
  analyze_color lab hsv upper rgb mask bins t w =
  if (length (shape rgb) <? 3)%nat
  then (bump w, Raise (RuntimeError "rgb_img must be an RGB image"))
  else
    match split_channels lab hsv rgb mask with
    | Raise e => (bump w, Raise e)
    | Return c =>
      match norm_channels c bins with
      | Raise e => (bump w, Raise e)
      | Return norm =>
        if plot_type_rejected upper t
        then (bump w, Raise (RuntimeError (plot_type_message t)))
        else
          match histograms norm mask bins with
          | Raise e => (bump w, Raise e)
          | Return hist =>
            match temp_hue_list (ch_h c) with
            | Raise e => (bump w, Raise e)
            | Return temp =>
              let figs := make_figures upper (dataset (np.arange bins) hist) bins t in
              match debug_output t (head figs) (bump w) with
              | (w2, Raise e) => (w2, Raise e)
              | (w2, Return _) =>
                match store_results bins (np.arange bins) hist
                        (stats.circmean temp 180) (stats.circstd temp 180)
                        (np.median temp) figs w2 with
                | (w3, Raise e) => (w3, Raise e)
                | (w3, Return _) =>
                    (w3, Return (color_header,
                                 color_data bins (np.arange bins) hist
                                   (stats.circmean temp 180) (stats.circstd temp 180)
                                   (np.median temp),
                                 figs))
                end
              end
            end
          end
      end
    end.
Proof.
  unfold analyze_color, bump.
  unfold mbind, M_bind, lift, when, get_world, set_params, fatal_error, raise, mret, M_ret.
  destruct (length (shape rgb) <? 3)%nat; [done|].
  destruct (split_channels lab hsv rgb mask) as [c|]; [|done].
  destruct (norm_channels c bins) as [norm|]; [|done].
  destruct (plot_type_rejected upper t); [done|].
  destruct (histograms norm mask bins); [|done].
  destruct (temp_hue_list (ch_h c)); done.
Qed.

(** A call that returns went through every step. *)
Lemma analyze_color_Return rgb mask bins t w w' res :
  analyze_color lab hsv upper rgb mask bins t w = (w', Return res) →
  ∃ c, split_channels lab hsv rgb mask = Return c ∧ 1 < bins ∧
       plot_type_rejected upper t = false ∧
       res = results_of upper c mask bins t ∧
       params w' = params (bump w) ∧
       outputs w' = outputs_of upper c mask bins t (outputs w).
Proof.
  rewrite analyze_color_unfold.
  destruct (length (shape rgb) <? 3)%nat; [done|].
  destruct (split_channels lab hsv rgb mask) as [c|] eqn:Hc; [|done].
  destruct (decide (bins = 0)) as [->|Hb0]; [by rewrite norm_channels_zero|].
  rewrite norm_channels_Return by done.
  destruct (plot_type_rejected upper t) eqn:Ht; [done|].
  destruct (decide (1 < bins ≤ C.INT_MAX)) as [Hb|Hb].
  2:{ destruct (histograms_Raise (map_channels (quantized bins) c) mask bins) as [msg ->];
        [lia|done]. }
  rewrite histograms_Return, temp_hue_list_Return by done. cbv zeta.
  pose proof (debug_output_frame t
    (head (make_figures upper (dataset (np.arange bins)
       (map_channels (hist_of bins (flat mask)) (map_channels (quantized bins) c))) bins t))
    (bump w)) as (Hp & Ho & _).
  destruct (debug_output _ _ _) as [w2 [[]|e]]; [|done].
  rewrite store_results_run. intros [= <- <-]. exists c.
  cbn [fst] in Hp, Ho. cbn [params outputs]. rewrite Ho. repeat split; (done || lia).
Qed.

(** What a call that returns tells about the bin count and the file
    system. *)
Lemma analyze_color_Return_env rgb mask bins t w w' res :
  analyze_color lab hsv upper rgb mask bins t w = (w', Return res) →
  bins ≤ C.INT_MAX ∧ save_possible w t ∧ file_system w' = file_system w.
Proof.
  rewrite analyze_color_unfold.
  destruct (length (shape rgb) <? 3)%nat; [done|].
  destruct (split_channels lab hsv rgb mask) as [c|] eqn:Hc; [|done].
  destruct (decide (bins = 0)) as [->|Hb0]; [by rewrite norm_channels_zero|].
  rewrite norm_channels_Return by done.
  destruct (plot_type_rejected upper t) eqn:Ht; [done|].
  destruct (decide (1 < bins ≤ C.INT_MAX)) as [Hb|Hb].
  2:{ destruct (histograms_Raise (map_channels (quantized bins) c) mask bins) as [msg ->];
        [lia|done]. }
  rewrite histograms_Return, temp_hue_list_Return by done. cbv zeta.
  pose proof (debug_output_frame t
    (head (make_figures upper (dataset (np.arange bins)
       (map_channels (hist_of bins (flat mask)) (map_channels (quantized bins) c))) bins t))
    (bump w)) as (_ & _ & Hf).
  destruct (debug_output _ _ _) as [w2 [[]|e]] eqn:Hd; [|done].
  rewrite store_results_run. intros [= <- <-].
  cbn [fst] in Hf. cbn [file_system]. split; [lia|]. split; [|exact Hf].
  exact (debug_output_Return_inv _ _ _ _ Hd).
Qed.

(** On an accepted image, bin count and selector, where the debug save is
    possible, the call returns. *)
Lemma analyze_color_runs rgb mask bins t w c :
  split_channels lab hsv rgb mask = Return c → 1 < bins ≤ C.INT_MAX →
  plot_type_rejected upper t = false → save_possible w t →
  ∃ w', analyze_color lab hsv upper rgb mask bins t w
        = (w', Return (results_of upper c mask bins t)).
Proof.
  intros Hc Hb Ht Hsave. rewrite analyze_color_unfold.
  destruct (split_channels_shape lab hsv rgb mask c Hc) as (h & wd & Hs & _).
  rewrite Hs, Hc. cbn [length Nat.ltb Nat.leb].
  rewrite norm_channels_Return by lia. rewrite Ht.
  rewrite histograms_Return, temp_hue_list_Return by done. cbv zeta.
  pose proof (make_figures_length upper (dataset (np.arange bins)
       (map_channels (hist_of bins (flat mask)) (map_channels (quantized bins) c)))
       bins t Ht) as Hlen.
  destruct (debug_output_Return t
    (head (make_figures upper (dataset (np.arange bins)
       (map_channels (hist_of bins (flat mask)) (map_channels (quantized bins) c))) bins t))
    (bump w)) as [w2 ->].
  { destruct t; [right|by left]. by destruct (make_figures _ _ _ _). }
  { exact Hsave. }
  rewrite store_results_run. by eexists.
Qed.

(** A call that raises has changed the device counter and nothing else. *)
Lemma analyze_color_Raise rgb mask bins t w w' e :
  analyze_color lab hsv upper rgb mask bins t w = (w', Raise e) → w' = bump w.
Proof.
  rewrite analyze_color_unfold.
  destruct (length (shape rgb) <? 3)%nat; [by intros [= <- _]|].
  destruct (split_channels lab hsv rgb mask) as [c|]; [|by intros [= <- _]].
  destruct (norm_channels c bins) as [norm|]; [|by intros [= <- _]].
  destruct (plot_type_rejected upper t); [by intros [= <- _]|].
  destruct (histograms norm mask bins) as [hist|]; [|by intros [= <- _]].
  destruct (temp_hue_list (ch_h c)) as [temp|]; [|by intros [= <- _]].
  cbv zeta. destruct (debug_output _ _ _) as [w2 [[]|e2]] eqn:Hd.
  - by rewrite store_results_run.
  - intros [= <- _]. by apply debug_output_exn in Hd as [-> _].
Qed.

End call.

(** ** Properties of [analyze_color] *)

Section properties.

Variables lab hsv : Z * Z * Z → Z * Z * Z.
Variable upper : string → string.

(** The channels of a one-pixel image under a non-zero mask byte. *)
Lemma split_channels_1x1 b g r m :
  m ≠ 0 →
  ∃ l a y h s v,
    lab (b, g, r) = (l, a, y) ∧ hsv (b, g, r) = (h, s, v) ∧
    split_channels lab hsv (image_1x1 b g r) (mask_1x1 m)
    = Return (mk_channels [b] [g] [r] [l] [a] [y] [h] [s] [v]).
Proof.
  intros Hm.
  destruct (lab (b, g, r)) as [[l a] y] eqn:Hl.
  destruct (hsv (b, g, r)) as [[h s] v] eqn:Hh.
  exists l, a, y, h, s, v. do 2 (split; [done|]).
  unfold split_channels, image_1x1, mask_1x1, cv2.bitwise_and, cv2.size_8UC1.
  cbn [shape flat]. rewrite bool_decide_true by done.
  cbn -[Z.land Z.eqb]. rewrite !Z.land_diag.
  destruct (m =? 0) eqn:E; [lia|].
  unfold cv2.cvtColor, cv2.split. cbn. rewrite Hl, Hh. done.
Qed.

(** Only the two checks raise [fatal_error]'s exception, and they do so in
    the world that [params.device += 1] left. *)
Lemma analyze_color_RuntimeError rgb mask bins t w w' msg :
  analyze_color lab hsv upper rgb mask bins t w = (w', Raise (RuntimeError msg)) →
  w' = bump w ∧
  (((length (shape rgb) < 3)%nat ∧ msg = "rgb_img must be an RGB image") ∨
   ((3 ≤ length (shape rgb))%nat ∧ plot_type_rejected upper t = true ∧
    msg = plot_type_message t)).
Proof.
  rewrite analyze_color_unfold.
  destruct (length (shape rgb) <? 3)%nat eqn:Hr.
  { intros [= <- <-]. apply Nat.ltb_lt in Hr. auto. }
  apply Nat.ltb_ge in Hr.
  destruct (split_channels lab hsv rgb mask) as [c|e] eqn:Hc.
  2:{ intros [= _ ->]. by destruct (split_channels_exn lab hsv rgb mask _ Hc msg). }
  destruct (decide (bins = 0)) as [->|Hb0]; [by rewrite norm_channels_zero|].
  rewrite norm_channels_Return by done.
  destruct (plot_type_rejected upper t) eqn:Ht.
  { intros [= <- <-]. auto. }
  destruct (decide (1 < bins ≤ C.INT_MAX)) as [Hb|Hb].
  2:{ destruct (histograms_Raise (map_channels (quantized bins) c) mask bins) as [m ->];
        [lia|done]. }
  rewrite histograms_Return, temp_hue_list_Return by done. cbv zeta.
  destruct (debug_output _ _ _) as [w2 [[]|e]] eqn:Hd.
  - by rewrite store_results_run.
  - intros [= _ ->]. by apply debug_output_exn in Hd as [_ [|(? & ? & ?)]].
Qed.

(** C1 (the code at the failing input): on the all-white one-pixel image
    with the pixel masked in and four bins, whatever the colour
    conversions, the call returns and the blue, green and red histograms
    are empty, although one pixel is masked in: a value quantized to the
    top level [bins - 1] is outside the half-open range [0, bins - 1) that
    is handed to [cv2.calcHist]. *)
Theorem white_pixel_not_counted w :
  ∃ w' data figs,
    analyze_color lab hsv upper (image_1x1 255 255 255) (mask_1x1 255) 4 None w
      = (w', Return (color_header, data, figs)) ∧
    masked_in (flat (mask_1x1 255)) = 1 ∧
    data !! 3%nat = Some (VList [0; 0; 0; 0]) ∧
    data !! 4%nat = Some (VList [0; 0; 0; 0]) ∧
    data !! 5%nat = Some (VList [0; 0; 0; 0]).
Proof.
  destruct (split_channels_1x1 255 255 255 255) as (l & a & y & h & s & v & _ & _ & Hc);
    [done|].
  destruct (analyze_color_runs lab hsv upper _ _ 4 None w _ Hc) as [w' Hrun];
    [done|done|by intros ?|].
  eexists w', _, _. split; [exact Hrun|].
  split; [done|].
  cbn [results_of color_data lookup list_lookup ch_b ch_g ch_r map_channels].
  repeat split; do 2 f_equal; vm_compute; reflexivity.
Qed.

(** C2 (as amended): on every call that returns, the three statistics are
    taken over the sequence obtained from the hue plane of the masked HSV
    image as [cv2.split] delivers it, before quantization: each hue value
    other than 0 appears in the sequence as often as in the plane, 0 does
    not appear, and the values are in ascending order; the results are the
    circular mean and circular standard deviation of that sequence with
    period 180 and its median. *)
Theorem hue_statistics_from_hue_plane rgb mask bins t w w' hd data figs :
  analyze_color lab hsv upper rgb mask bins t w = (w', Return (hd, data, figs)) →
  ∃ c seq,
    split_channels lab hsv rgb mask = Return c ∧
    (∀ v, count_occ Z.eq_dec seq v =
            if decide (v = 0) then 0%nat else count_occ Z.eq_dec (ch_h c) v) ∧
    StronglySorted Z.le seq ∧
    data !! 12%nat = Some (VStat (stats.circmean seq 180)) ∧
    data !! 13%nat = Some (VStat (stats.circstd seq 180)) ∧
    data !! 14%nat = Some (VFloat (np.median seq)).
Proof.
  intros Hrun. apply analyze_color_Return in Hrun as (c & Hc & _ & _ & Hres & _).
  injection Hres as -> -> ->. exists c, (hue_observations (ch_h c)).
  split; [done|]. split; [apply hue_observations_count|].
  split; [apply hue_observations_sorted|]. done.
Qed.

(** C3 (as amended): on an accepted image (not empty, three channels, a
    mask of its height and width), with 2 to 256 bins, an accepted or
    missing selector and a debug save that is possible, if the hue plane
    holds only the value 0 the call raises nothing: it returns, the
    circular mean and the circular standard deviation are those of the
    empty sequence and the median is NaN. *)
Theorem all_zero_hue_statistics rgb mask bins t w c :
  split_channels lab hsv rgb mask = Return c → 1 < bins ≤ 256 →
  plot_type_rejected upper t = false → save_possible w t →
  Forall (λ x, x = 0) (ch_h c) →
  ∃ w' data figs,
    analyze_color lab hsv upper rgb mask bins t w = (w', Return (color_header, data, figs)) ∧
    data !! 12%nat = Some (VStat (stats.circmean [] 180)) ∧
    data !! 13%nat = Some (VStat (stats.circstd [] 180)) ∧
    data !! 14%nat = Some (VFloat PrimFloat.nan).
Proof.
  intros Hc Hb Ht Hsave Hz.
  destruct (analyze_color_runs lab hsv upper rgb mask bins t w c Hc) as [w' Hrun];
    [unfold C.INT_MAX; lia|done|done|].
  eexists w', _, _. split; [exact Hrun|].
  cbn [color_data lookup list_lookup]. rewrite (hue_observations_all_zero _ Hz). done.
Qed.

(** C4 (as amended): where the call reaches the selector check (an
    (h, w, 3) image that is not empty, a mask of that height and width, a
    bin count other than 0), every selector whose upper-case form is none
    of the keys ALL, RGB, LAB, HSV ends the call with the plot-type error,
    in the world the increment left; a missing selector and every selector
    whose upper-case form is one of the four keys never do, whatever the
    other arguments; and every case variant of all, rgb, lab, hsv is such a
    selector, [str.upper] being the ASCII mapping on ASCII words. *)
Theorem plot_type_check rgb mask bins w :
  (∀ s h wd,
     shape rgb = [h; wd; 3%nat] → cv2.size_8UC1 mask = Some (h, wd) →
     (0 < h * wd)%nat → bins ≠ 0 →
     upper s ∉ plot_keys →
     InvalidArgument (RuntimeError (plot_type_message (Some s))) ∧
     analyze_color lab hsv upper rgb mask bins (Some s) w
       = (bump w, Raise (RuntimeError (plot_type_message (Some s))))) ∧
  (∀ t,
     (t = None ∨ ∃ s, t = Some s ∧ upper s ∈ plot_keys) →
     ∀ e, (analyze_color lab hsv upper rgb mask bins t w).2 = Raise e →
          ¬ InvalidArgument e) ∧
  (upper_on_ascii upper → ∀ s, case_variant s → upper s ∈ plot_keys).
Proof.
  split; [|split].
  - intros s h wd Hs Hm Hn Hb Hk. split; [by eexists|]. rewrite analyze_color_unfold.
    destruct (split_channels_Return lab hsv rgb mask h wd Hs Hm Hn) as [c ->].
    rewrite Hs. cbn [length Nat.ltb Nat.leb]. rewrite norm_channels_Return by done.
    by rewrite (proj2 (plot_type_rejected_true upper s) Hk).
  - intros t Ht e Hrun [t' ->].
    destruct (analyze_color _ _ _ _ _ _ _ _) as [w' o] eqn:E. cbn [snd] in Hrun. subst o.
    apply analyze_color_RuntimeError in E as [_ [[_ Hmsg]|(_ & Hrej & _)]].
    + by apply plot_type_message_not_rgb in Hmsg.
    + assert (plot_type_rejected upper t = false) as Hok; [|congruence].
      by apply plot_type_rejected_false.
  - intros Hup s Hs. by apply case_variant_key.
Qed.

(** C5: on every call that returns, the header list and the value list
    have 15 elements each, and the list of plot artifacts is empty without
    a selector and holds exactly one figure with one. *)
Theorem result_sizes rgb mask bins t w w' hd data figs :
  analyze_color lab hsv upper rgb mask bins t w = (w', Return (hd, data, figs)) →
  length hd = 15%nat ∧ length data = 15%nat ∧
  length figs = match t with Some _ => 1%nat | None => 0%nat end.
Proof.
  intros Hrun. apply analyze_color_Return in Hrun as (c & _ & _ & Ht & Hres & _).
  injection Hres as -> -> ->. split; [done|]. split; [done|].
  by apply make_figures_length.
Qed.

(** C6: an image array of fewer than three dimensions ends the call with
    the error "rgb_img must be an RGB image", raised right after the device
    counter was incremented; with a three-dimensional image no call ends
    with that error. *)
Theorem rank_check rgb mask bins t w :
  ((length (shape rgb) < 3)%nat →
     ∃ e, InvalidInput e ∧
          analyze_color lab hsv upper rgb mask bins t w = (bump w, Raise e)) ∧
  (length (shape rgb) = 3%nat →
     ∀ e, (analyze_color lab hsv upper rgb mask bins t w).2 = Raise e → ¬ InvalidInput e).
Proof.
  split.
  - intros Hr. eexists. split; [reflexivity|]. rewrite analyze_color_unfold.
    apply Nat.ltb_lt in Hr. by rewrite Hr.
  - intros Hr e Hrun ->.
    destruct (analyze_color _ _ _ _ _ _ _ _) as [w' o] eqn:E. cbn [snd] in Hrun. subst o.
    apply analyze_color_RuntimeError in E as [_ [[Hlt _]|(_ & _ & Hmsg)]].
    + lia.
    + symmetry in Hmsg. by apply plot_type_message_not_rgb in Hmsg.
Qed.

(** C7: a call that ends in one of the two validation errors leaves the
    output store as it was: the measurements of every category and the
    list of images are those from before the call. *)
Theorem validation_failure_keeps_outputs rgb mask bins t w w' e :
  analyze_color lab hsv upper rgb mask bins t w = (w', Raise e) →
  InvalidInput e ∨ InvalidArgument e →
  outputs w' = outputs w.
Proof. intros Hrun _. by apply analyze_color_Raise in Hrun as ->. Qed.

(** C8: a call that returns changes the measurements under "color_data"
    only: every other category reads as before; under "color_data" the
    fourteen fields hold the values this call returned, whatever was there,
    and fields of other names are kept; and the call's list of plot
    artifacts is appended to [outputs.images]. *)
Theorem outputs_written_under_color_data rgb mask bins t w w' hd data figs :
  analyze_color lab hsv upper rgb mask bins t w = (w', Return (hd, data, figs)) →
  (∀ category, category ≠ "color_data" →
     measurements (outputs w') !! category = measurements (outputs w) !! category) ∧
  (∃ fields,
     measurements (outputs w') !! "color_data" = Some fields ∧
     fields !! "bin-number" = data !! 1%nat ∧
     fields !! "bin-values" = data !! 2%nat ∧
     fields !! "blue" = data !! 3%nat ∧
     fields !! "green" = data !! 4%nat ∧
     fields !! "red" = data !! 5%nat ∧
     fields !! "lightness" = data !! 6%nat ∧
     fields !! "green-magenta" = data !! 7%nat ∧
     fields !! "blue-yellow" = data !! 8%nat ∧
     fields !! "hue" = data !! 9%nat ∧
     fields !! "saturation" = data !! 10%nat ∧
     fields !! "value" = data !! 11%nat ∧
     fields !! "mean" = data !! 12%nat ∧
     fields !! "standard-deviation" = data !! 13%nat ∧
     fields !! "median" = data !! 14%nat ∧
     (∀ field,
        field ∉ ["bin-number"; "bin-values"; "blue"; "green"; "red"; "lightness";
                 "green-magenta"; "blue-yellow"; "hue"; "saturation"; "value";
                 "mean"; "standard-deviation"; "median"] →
        fields !! field =
          default ∅ (measurements (outputs w) !! "color_data") !! field)) ∧
  images (outputs w') = images (outputs w) ++ [figs].
Proof.
  intros Hrun. apply analyze_color_Return in Hrun as (c & _ & _ & _ & Hres & _ & Ho).
  injection Hres as -> -> ->. rewrite Ho. unfold outputs_of. cbn [measurements images].
  split; [|split; [|done]].
  - intros category Hne. by rewrite lookup_insert_ne.
  - eexists. split; [apply lookup_insert_eq|]. unfold stored_fields.
    repeat (split; [by simplify_map_eq|]).
    intros field Hf. rewrite !not_elem_of_cons in Hf.
    destruct Hf as (?&?&?&?&?&?&?&?&?&?&?&?&?&?&_).
    by rewrite !lookup_insert_ne.
Qed.

(** C9 (as amended): on an accepted image (not empty, three channels, a
    mask of its height and width), with 2 to 256 bins, an accepted or
    missing selector and a debug save that is possible, if the hue plane
    holds no 0 then deleting key 0 from the
    hue Counter raises nothing and leaves the Counter as it is; the call
    returns and the statistics are taken over a sequence that is a
    rearrangement of the whole hue plane. *)
Theorem no_background_hue rgb mask bins t w c :
  split_channels lab hsv rgb mask = Return c → 1 < bins ≤ 256 →
  plot_type_rejected upper t = false → save_possible w t →
  0 ∉ ch_h c →
  Counter.delitem 0 (Counter.of_iterable (ch_h c)) = Return (Counter.of_iterable (ch_h c)) ∧
  ∃ w' data figs seq,
    analyze_color lab hsv upper rgb mask bins t w
      = (w', Return (color_header, data, figs)) ∧
    seq ≡ₚ ch_h c ∧
    data !! 12%nat = Some (VStat (stats.circmean seq 180)) ∧
    data !! 13%nat = Some (VStat (stats.circstd seq 180)) ∧
    data !! 14%nat = Some (VFloat (np.median seq)).
Proof.
  intros Hc Hb Ht Hsave Hz. split.
  - rewrite Counter_delitem_total. f_equal. apply delete_id.
    rewrite Counter_of_iterable_lookup.
    rewrite (proj1 (count_occ_not_In Z.eq_dec (ch_h c) 0)); [done|].
    intros Hin. by apply Hz, list_elem_of_In.
  - destruct (analyze_color_runs lab hsv upper rgb mask bins t w c Hc) as [w' Hrun];
      [unfold C.INT_MAX; lia|done|done|].
    eexists w', _, _, (hue_observations (ch_h c)). split; [exact Hrun|].
    split; [by apply hue_observations_no_zero|done].
Qed.

(** C10: every call, whether it returns or raises, leaves the device
    counter one higher than it found it; and a call that ends in one of
    the two validation errors ends in exactly the world the increment
    produced, so the increment came before the checks. *)
Theorem device_incremented rgb mask bins t w :
  device (params (analyze_color lab hsv upper rgb mask bins t w).1) = device (params w) + 1 ∧
  (∀ e, (analyze_color lab hsv upper rgb mask bins t w).2 = Raise e →
        InvalidInput e ∨ InvalidArgument e →
        (analyze_color lab hsv upper rgb mask bins t w).1 = bump w).
Proof.
  destruct (analyze_color _ _ _ _ _ _ _ _) as [w' [res|e]] eqn:E; cbn [fst snd].
  - split; [|done].
    apply analyze_color_Return in E as (c & _ & _ & _ & _ & Hp & _). by rewrite Hp.
  - split.
    + by apply analyze_color_Raise in E as ->.
    + intros e' [= <-] [->|[t' ->]];
        by apply analyze_color_RuntimeError in E as [-> _].
Qed.

End properties.

(** ** The properties on concrete images *)

(** The median of the single sample 60 is a number, that of no sample is
    NaN. *)
Lemma median_60_not_nan : np.median [60] ≠ np.median [].
Proof.
  intros H. apply (f_equal Prim2SF) in H. vm_compute in H. discriminate.
Qed.

(** The green pixel: its hue, 60, is quantized to 0 with four bins, yet the
    statistics are those of the sequence [60]. *)
Lemma green_pixel_statistics lab hsv upper w s v :
  hsv (0, 255, 0) = (60, s, v) →
  ∃ w' data figs c norm,
    analyze_color lab hsv upper (image_1x1 0 255 0) (mask_1x1 255) 4 None w
      = (w', Return (color_header, data, figs)) ∧
    split_channels lab hsv (image_1x1 0 255 0) (mask_1x1 255) = Return c ∧
    norm_channels c 4 = Return norm ∧
    ch_h c = [60] ∧ ch_h norm = [0] ∧
    data !! 12%nat = Some (VStat (stats.circmean [60] 180)) ∧
    data !! 13%nat = Some (VStat (stats.circstd [60] 180)) ∧
    data !! 14%nat = Some (VFloat (np.median [60])).
Proof.
  intros Hh.
  destruct (split_channels_1x1 lab hsv 0 255 0 255)
    as (l & a & y & h' & s' & v' & _ & Hh' & Hc); [done|].
  rewrite Hh in Hh'. injection Hh' as <- <- <-.
  destruct (analyze_color_runs lab hsv upper _ _ 4 None w _ Hc) as [w' Hrun];
    [done|done|by intros ?|].
  eexists w', _, _, _, _. split; [exact Hrun|]. split; [exact Hc|].
  split; [by apply norm_channels_Return|].
  cbn [ch_h map_channels color_data lookup list_lookup].
  split; [done|]. split; [by vm_compute|].
  assert (hue_observations [60] = [60]) as -> by (by vm_compute). done.
Qed.

(** C2 (counterexample): for the one-pixel pure green image, masked in,
    with four bins, the quantized hue channel is [0], whose non-zero
    observations are none; the call returns median 60 (and the circular
    statistics of [60]), not the statistics of any sequence built from the
    quantized channel. *)
Lemma hue_statistics_not_from_quantized_hue :
  ∃ w' data figs c norm,
    analyze_color cv2_8u.achromatic_Lab cv2_8u.COLOR_BGR2HSV py.upper
      (image_1x1 0 255 0) (mask_1x1 255) 4 None fresh_world
      = (w', Return (color_header, data, figs)) ∧
    split_channels cv2_8u.achromatic_Lab cv2_8u.COLOR_BGR2HSV
      (image_1x1 0 255 0) (mask_1x1 255) = Return c ∧
    norm_channels c 4 = Return norm ∧
    ch_h norm = [0] ∧
    data !! 14%nat = Some (VFloat (np.median [60])) ∧
    ¬ ∃ seq,
        (∀ v, count_occ Z.eq_dec seq v =
                if decide (v = 0) then 0%nat else count_occ Z.eq_dec (ch_h norm) v) ∧
        data !! 12%nat = Some (VStat (stats.circmean seq 180)) ∧
        data !! 13%nat = Some (VStat (stats.circstd seq 180)) ∧
        data !! 14%nat = Some (VFloat (np.median seq)).
Proof.
  assert (cv2_8u.COLOR_BGR2HSV (0, 255, 0) = (60, 255, 255)) as Hg
    by (vm_compute; reflexivity).
  destruct (green_pixel_statistics cv2_8u.achromatic_Lab cv2_8u.COLOR_BGR2HSV
              py.upper fresh_world 255 255 Hg)
    as (w' & data & figs & c & norm & Hrun & Hc & Hn & _ & Hq & _ & _ & Hmed).
  exists w', data, figs, c, norm. do 5 (split; [assumption|]).
  intros (seq & Hcount & _ & _ & Hmed'). rewrite Hq in Hcount.
  assert (seq = []) as ->.
  { apply (count_occ_inv_nil Z.eq_dec). intros v. rewrite Hcount.
    case_decide as Hv; [reflexivity|]. cbn [count_occ].
    destruct (Z.eq_dec 0 v) as [<-|]; [by destruct Hv|reflexivity]. }
  rewrite Hmed in Hmed'. apply median_60_not_nan.
  exact (f_equal (λ o, match o with Some (VFloat f) => f | _ => PrimFloat.nan end) Hmed').
Qed.

(** The black pixel: whatever the conversions, as long as black has hue 0,
    the call returns. *)
Lemma black_pixel_returns lab hsv upper w s v :
  hsv (0, 0, 0) = (0, s, v) →
  ∃ w' data figs c,
    analyze_color lab hsv upper (image_1x1 0 0 0) (mask_1x1 255) 4 None w
      = (w', Return (color_header, data, figs)) ∧
    split_channels lab hsv (image_1x1 0 0 0) (mask_1x1 255) = Return c ∧
    ch_h c = [0] ∧
    data !! 14%nat = Some (VFloat PrimFloat.nan).
Proof.
  intros Hh.
  destruct (split_channels_1x1 lab hsv 0 0 0 255)
    as (l & a & y & h' & s' & v' & _ & Hh' & Hc); [done|].
  rewrite Hh in Hh'. injection Hh' as <- <- <-.
  destruct (analyze_color_runs lab hsv upper _ _ 4 None w _ Hc) as [w' Hrun];
    [done|done|by intros ?|].
  eexists w', _, _, _. split; [exact Hrun|]. split; [exact Hc|]. split; [done|].
  cbn [color_data lookup list_lookup ch_h].
  rewrite (hue_observations_all_zero [0]) by (by repeat constructor). done.
Qed.

(** C3 (counterexample): the one-pixel black image, masked in, with four
    bins has hue plane [0]; the call raises nothing and returns NaN as the
    median. *)
Lemma all_zero_hue_raises_nothing :
  ∃ w' data figs c,
    analyze_color cv2_8u.achromatic_Lab cv2_8u.COLOR_BGR2HSV py.upper
      (image_1x1 0 0 0) (mask_1x1 255) 4 None fresh_world
      = (w', Return (color_header, data, figs)) ∧
    split_channels cv2_8u.achromatic_Lab cv2_8u.COLOR_BGR2HSV
      (image_1x1 0 0 0) (mask_1x1 255) = Return c ∧
    ch_h c = [0] ∧
    data !! 14%nat = Some (VFloat PrimFloat.nan).
Proof. apply (black_pixel_returns _ _ _ _ 0 0). vm_compute. reflexivity. Qed.

(** C2 on the green pixel with four bins. *)
Lemma hue_statistics_from_hue_plane_witness :
  ∃ w' hd data figs,
    analyze_color cv2_8u.achromatic_Lab cv2_8u.COLOR_BGR2HSV py.upper
      (image_1x1 0 255 0) (mask_1x1 255) 4 None fresh_world
      = (w', Return (hd, data, figs)) ∧
    ∃ c seq,
      split_channels cv2_8u.achromatic_Lab cv2_8u.COLOR_BGR2HSV
        (image_1x1 0 255 0) (mask_1x1 255) = Return c ∧
      (∀ v, count_occ Z.eq_dec seq v =
              if decide (v = 0) then 0%nat else count_occ Z.eq_dec (ch_h c) v) ∧
      StronglySorted Z.le seq ∧
      data !! 12%nat = Some (VStat (stats.circmean seq 180)) ∧
      data !! 13%nat = Some (VStat (stats.circstd seq 180)) ∧
      data !! 14%nat = Some (VFloat (np.median seq)).
Proof.
  destruct (analyze_color cv2_8u.achromatic_Lab cv2_8u.COLOR_BGR2HSV py.upper
              (image_1x1 0 255 0) (mask_1x1 255) 4 None fresh_world)
    as [w' [[[hd data] figs]|e]] eqn:E.
  - exists w', hd, data, figs. split; [reflexivity|].
    exact (hue_statistics_from_hue_plane _ _ _ _ _ _ _ _ _ _ _ _ E).
  - exfalso. vm_compute in E. discriminate.
Defined.

(** C3 on the black pixel, with a selector and debugging on. *)
Lemma all_zero_hue_statistics_witness :
  ∃ w' data figs,
    analyze_color cv2_8u.achromatic_Lab cv2_8u.COLOR_BGR2HSV py.upper
      (image_1x1 0 0 0) (mask_1x1 255) 4 (Some "hsv") stored_world
      = (w', Return (color_header, data, figs)) ∧
    data !! 12%nat = Some (VStat (stats.circmean [] 180)) ∧
    data !! 13%nat = Some (VStat (stats.circstd [] 180)) ∧
    data !! 14%nat = Some (VFloat PrimFloat.nan).
Proof.
  apply (all_zero_hue_statistics cv2_8u.achromatic_Lab cv2_8u.COLOR_BGR2HSV py.upper
           (image_1x1 0 0 0) (mask_1x1 255) 4 (Some "hsv") stored_world
           (mk_channels [0] [0] [0] [0] [128] [128] [0] [0] [0])).
  - vm_compute. reflexivity.
  - lia.
  - vm_compute. reflexivity.
  - intros _ _. reflexivity.
  - repeat constructor.
Defined.

(** C4 (counterexample): the selector xyz, no case variant of a plot
    type, does not end every call with the plot-type error: with a bin
    count of 0 the division of line 47 fails first, and on an empty image
    the unpacking of line 40 does. *)
Lemma plot_type_not_checked :
  ¬ case_variant "xyz" ∧ (py.upper "xyz" ∉ plot_keys) ∧
  (∃ w' e,
     analyze_color cv2_8u.achromatic_Lab cv2_8u.COLOR_BGR2HSV py.upper
       (image_1x1 0 255 0) (mask_1x1 255) 0 (Some "xyz") stored_world = (w', Raise e) ∧
     e = ZeroDivisionError "division by zero" ∧
     ¬ InvalidArgument e) ∧
  (∃ w' e,
     analyze_color cv2_8u.achromatic_Lab cv2_8u.COLOR_BGR2HSV py.upper
       (mk_ndarray [0; 0; 3]%nat []) (mk_ndarray [0; 0]%nat []) 4 (Some "xyz")
       stored_world = (w', Raise e) ∧
     e = ValueError "not enough values to unpack (expected 3, got 0)" ∧
     ¬ InvalidArgument e).
Proof.
  split; [|split; [|split]].
  - apply (bool_decide_eq_false_1 (ascii_lower "xyz" ∈ plot_types)). vm_compute. reflexivity.
  - apply (bool_decide_eq_false_1 (py.upper "xyz" ∈ plot_keys)). vm_compute. reflexivity.
  - eexists _, _. split; [vm_compute; reflexivity|]. split; [reflexivity|].
    by intros [t' ?].
  - eexists _, _. split; [vm_compute; reflexivity|]. split; [reflexivity|].
    by intros [t' ?].
Qed.

(** C4 on the green pixel: the selector xyz is rejected; rGb and the
    selector written with a long s are not. *)
Lemma plot_type_check_witness :
  (InvalidArgument (RuntimeError (plot_type_message (Some "xyz"))) ∧
   analyze_color cv2_8u.achromatic_Lab cv2_8u.COLOR_BGR2HSV py.upper
     (image_1x1 0 255 0) (mask_1x1 255) 4 (Some "xyz") stored_world
   = (bump stored_world, Raise (RuntimeError (plot_type_message (Some "xyz"))))) ∧
  (∀ e, (analyze_color cv2_8u.achromatic_Lab cv2_8u.COLOR_BGR2HSV py.upper
           (image_1x1 0 255 0) (mask_1x1 255) 4 (Some "hſv") stored_world).2 = Raise e →
        ¬ InvalidArgument e) ∧
  py.upper "rGb" ∈ plot_keys.
Proof.
  split; [|split].
  - apply (proj1 (plot_type_check cv2_8u.achromatic_Lab cv2_8u.COLOR_BGR2HSV py.upper
                    (image_1x1 0 255 0) (mask_1x1 255) 4 stored_world) "xyz" 1%nat 1%nat).
    + reflexivity.
    + reflexivity.
    + lia.
    + lia.
    + apply (bool_decide_eq_false_1 (py.upper "xyz" ∈ plot_keys)). vm_compute. reflexivity.
  - apply (proj1 (proj2 (plot_type_check cv2_8u.achromatic_Lab cv2_8u.COLOR_BGR2HSV
                           py.upper (image_1x1 0 255 0) (mask_1x1 255) 4 stored_world))
             (Some "hſv")).
    right. exists "hſv". split; [reflexivity|].
    apply (bool_decide_eq_true_1 (py.upper "hſv" ∈ plot_keys)). vm_compute. reflexivity.
  - apply (proj2 (proj2 (plot_type_check cv2_8u.achromatic_Lab cv2_8u.COLOR_BGR2HSV
                           py.upper (image_1x1 0 255 0) (mask_1x1 255) 4 stored_world))
             py_upper_on_ascii "rGb").
    apply (bool_decide_eq_true_1 (ascii_lower "rGb" ∈ plot_types)). vm_compute. reflexivity.
Defined.

(** C5 on the green pixel with the selector rGb. *)
Lemma result_sizes_witness :
  ∃ w' hd data figs,
    analyze_color cv2_8u.achromatic_Lab cv2_8u.COLOR_BGR2HSV py.upper
      (image_1x1 0 255 0) (mask_1x1 255) 4 (Some "rGb") stored_world
      = (w', Return (hd, data, figs)) ∧
    length hd = 15%nat ∧ length data = 15%nat ∧ length figs = 1%nat.
Proof.
  destruct (analyze_color cv2_8u.achromatic_Lab cv2_8u.COLOR_BGR2HSV py.upper
              (image_1x1 0 255 0) (mask_1x1 255) 4 (Some "rGb") stored_world)
    as [w' [[[hd data] figs]|e]] eqn:E.
  - exists w', hd, data, figs. split; [reflexivity|].
    exact (result_sizes _ _ _ _ _ _ _ _ _ _ _ _ E).
  - exfalso. vm_compute in E. discriminate.
Defined.

(** C6: a two-dimensional array is rejected; the green pixel is not,
    even where the call fails later (one bin). *)
Lemma rank_check_witness :
  (∃ e, InvalidInput e ∧
        analyze_color cv2_8u.achromatic_Lab cv2_8u.COLOR_BGR2HSV py.upper
          (mask_1x1 255) (mask_1x1 255) 4 None stored_world
        = (bump stored_world, Raise e)) ∧
  (∀ e, (analyze_color cv2_8u.achromatic_Lab cv2_8u.COLOR_BGR2HSV py.upper
           (image_1x1 0 255 0) (mask_1x1 255) 1 None stored_world).2 = Raise e →
        ¬ InvalidInput e).
Proof.
  split.
  - apply (proj1 (rank_check cv2_8u.achromatic_Lab cv2_8u.COLOR_BGR2HSV py.upper
                    (mask_1x1 255) (mask_1x1 255) 4 None stored_world)).
    cbn. lia.
  - apply (proj2 (rank_check cv2_8u.achromatic_Lab cv2_8u.COLOR_BGR2HSV py.upper
                    (image_1x1 0 255 0) (mask_1x1 255) 1 None stored_world)).
    reflexivity.
Defined.

(** C7 on a call that fails the selector check in a world with stored
    measurements. *)
Lemma validation_failure_keeps_outputs_witness :
  outputs (bump stored_world) = outputs stored_world.
Proof.
  apply (validation_failure_keeps_outputs cv2_8u.achromatic_Lab cv2_8u.COLOR_BGR2HSV
           py.upper (image_1x1 0 255 0) (mask_1x1 255) 4 (Some "xyz") stored_world
           (bump stored_world)
           (RuntimeError (plot_type_message (Some "xyz")))).
  - vm_compute. reflexivity.
  - right. exists (Some "xyz"). reflexivity.
Defined.

(** C8 in a world with stored measurements: the other category and the
    foreign field survive, the bin count is overwritten, the figures are
    appended. *)
Lemma outputs_written_under_color_data_witness :
  ∃ w' hd data figs,
    analyze_color cv2_8u.achromatic_Lab cv2_8u.COLOR_BGR2HSV py.upper
      (image_1x1 0 255 0) (mask_1x1 255) 4 (Some "all") stored_world
      = (w', Return (hd, data, figs)) ∧
    measurements (outputs w') !! "shape_data" = Some {[ "area" := VInt 42 ]} ∧
    (∃ fields,
       measurements (outputs w') !! "color_data" = Some fields ∧
       fields !! "bin-number" = Some (VInt 4) ∧
       fields !! "note" = Some (VStr "kept")) ∧
    images (outputs w') = [[]; figs].
Proof.
  destruct (analyze_color cv2_8u.achromatic_Lab cv2_8u.COLOR_BGR2HSV py.upper
              (image_1x1 0 255 0) (mask_1x1 255) 4 (Some "all") stored_world)
    as [w' [[[hd data] figs]|e]] eqn:E.
  - exists w', hd, data, figs. split; [reflexivity|].
    destruct (outputs_written_under_color_data _ _ _ _ _ _ _ _ _ _ _ _ E)
      as (Hother & (fields & Hf & Hbins & _ & _ & _ & _ & _ & _ & _ & _ & _ & _ & _ & _ & _
                    & Hkept) & Himg).
    split; [|split].
    + rewrite Hother by discriminate. reflexivity.
    + exists fields. split; [exact Hf|]. split.
      * rewrite Hbins.
        destruct (analyze_color_Return _ _ _ _ _ _ _ _ _ _ E) as (c & _ & _ & _ & Hres & _).
        injection Hres as _ -> _. reflexivity.
      * rewrite Hkept; [reflexivity|].
        apply (bool_decide_eq_false_1 _). vm_compute. reflexivity.
    + exact Himg.
  - exfalso. vm_compute in E. discriminate.
Defined.

(** C9 (counterexample): the green pixel has hue 60, so its hue plane
    holds no 0; with one bin the call does not proceed to the statistics:
    [cv2.calcHist] refuses the range [0, 0] and the call raises. *)
Lemma no_background_hue_call_raises :
  ∃ c w' msg,
    split_channels cv2_8u.achromatic_Lab cv2_8u.COLOR_BGR2HSV
      (image_1x1 0 255 0) (mask_1x1 255) = Return c ∧
    (0 ∉ ch_h c) ∧
    analyze_color cv2_8u.achromatic_Lab cv2_8u.COLOR_BGR2HSV py.upper
      (image_1x1 0 255 0) (mask_1x1 255) 1 None fresh_world
      = (w', Raise (cv2_error msg)).
Proof.
  eexists _, _, _. split; [vm_compute; reflexivity|]. split.
  - cbn [ch_h]. apply (bool_decide_eq_false_1 (0 ∈ [60])). vm_compute. reflexivity.
  - vm_compute. reflexivity.
Qed.

(** C9 on the green pixel, whose hue is 60. *)
Lemma no_background_hue_witness :
  Counter.delitem 0 (Counter.of_iterable [60]) = Return (Counter.of_iterable [60]) ∧
  ∃ w' data figs seq,
    analyze_color cv2_8u.achromatic_Lab cv2_8u.COLOR_BGR2HSV py.upper
      (image_1x1 0 255 0) (mask_1x1 255) 4 None fresh_world
      = (w', Return (color_header, data, figs)) ∧
    seq ≡ₚ [60] ∧
    data !! 12%nat = Some (VStat (stats.circmean seq 180)) ∧
    data !! 13%nat = Some (VStat (stats.circstd seq 180)) ∧
    data !! 14%nat = Some (VFloat (np.median seq)).
Proof.
  apply (no_background_hue cv2_8u.achromatic_Lab cv2_8u.COLOR_BGR2HSV py.upper
           (image_1x1 0 255 0) (mask_1x1 255) 4 None fresh_world
           (mk_channels [0] [255] [0] [255] [128] [128] [60] [255] [255])).
  - vm_compute. reflexivity.
  - lia.
  - reflexivity.
  - intros []. reflexivity.
  - apply (bool_decide_eq_false_1 (0 ∈ [60])). vm_compute. reflexivity.
Defined.

(** ** Further properties *)

Section further.

Variables lab hsv : Z * Z * Z → Z * Z * Z.
Variable upper : string → string.

(** X1: on every call that returns with at most 2^24 pixels masked in (so
    that the 32-bit floats of the histogram hold the counts exactly), each
    of the nine histograms in the value list has [bins] entries, none of
    them negative, and they add up to at most the number of masked-in
    pixels. *)
Theorem histograms_well_formed rgb mask bins t w w' hd data figs :
  analyze_color lab hsv upper rgb mask bins t w = (w', Return (hd, data, figs)) →
  masked_in (flat mask) ≤ 2 ^ 24 →
  length (take 9 (drop 3 data)) = 9%nat ∧
  Forall (λ x, ∃ hist, x = VList hist ∧
                 length hist = Z.to_nat bins ∧
                 Forall (λ n, 0 ≤ n) hist ∧
                 sum_hist hist ≤ masked_in (flat mask))
         (take 9 (drop 3 data)).
Proof.
  intros Hrun Hm. apply analyze_color_Return in Hrun as (c & _ & _ & _ & Hres & _).
  injection Hres as -> -> ->. split; [done|].
  cbn [color_data drop take map_channels ch_b ch_g ch_r ch_l ch_m ch_y ch_h ch_s ch_v].
  repeat (apply Forall_cons; split;
          [eexists; split;
             [reflexivity
             |rewrite hist_of_exact by done;
              split; [apply counts_of_length
                     |split; [apply counts_of_nonneg|apply counts_of_sum_le]]]|]).
  constructor.
Qed.

(** Masking forgets the bytes of masked-out pixels. *)
Lemma bitwise_and_masked_out rgb rgb' mask h wd :
  shape rgb = [h; wd; 3%nat] → shape rgb' = shape rgb →
  length (flat rgb') = length (flat rgb) →
  (∀ i, flat mask !!! (i / 3)%nat ≠ 0 → flat rgb' !!! i = flat rgb !!! i) →
  cv2.bitwise_and rgb' rgb' mask = cv2.bitwise_and rgb rgb mask.
Proof.
  intros Hs Hs' Hlen Hagree. unfold cv2.bitwise_and. rewrite Hs', Hs.
  destruct (cv2.size_8UC1 mask) as [[h' w']|]; [|done].
  case_bool_decide; [|done]. do 2 f_equal. apply list_eq. intros i.
  rewrite !list_lookup_imap.
  destruct (flat rgb !! i) as [x|] eqn:Hx.
  - destruct (lookup_lt_is_Some_2 (flat rgb') i) as [x' Hx'].
    { rewrite Hlen. by eapply lookup_lt_Some. }
    rewrite Hx'. cbn -[Nat.div]. f_equal.
    destruct (flat mask !!! (i / 3)%nat =? 0) eqn:Hm; [reflexivity|].
    apply Z.eqb_neq, Hagree in Hm.
    rewrite !list_lookup_total_alt, Hx, Hx' in Hm |- *. cbn in Hm |- *. by subst.
  - rewrite (lookup_ge_None_2 (flat rgb') i); [done|].
    rewrite Hlen. by apply lookup_ge_None.
Qed.

(** X2: the bytes of masked-out pixels play no part: two (h, w, 3) images
    that agree on every pixel whose mask byte is non-zero give the same
    outcome and the same final world. *)
Theorem masked_out_pixels_ignored rgb rgb' mask bins t w h wd :
  shape rgb = [h; wd; 3%nat] → shape rgb' = shape rgb →
  length (flat rgb') = length (flat rgb) →
  (∀ i, flat mask !!! (i / 3)%nat ≠ 0 → flat rgb' !!! i = flat rgb !!! i) →
  analyze_color lab hsv upper rgb' mask bins t w = analyze_color lab hsv upper rgb mask bins t w.
Proof.
  intros Hs Hs' Hlen Hagree. rewrite !analyze_color_unfold, Hs'.
  assert (split_channels lab hsv rgb' mask = split_channels lab hsv rgb mask) as ->;
    [|done].
  unfold split_channels. by rewrite (bitwise_and_masked_out rgb rgb' mask h wd).
Qed.

(** X3: on every call that returns, the bin count is reported as given
    and the bin axis is the sequence 0, 1, ..., bins - 1. *)
Theorem bin_axis rgb mask bins t w w' hd data figs :
  analyze_color lab hsv upper rgb mask bins t w = (w', Return (hd, data, figs)) →
  data !! 1%nat = Some (VInt bins) ∧
  data !! 2%nat = Some (VList (seqZ 0 bins)) ∧
  length (seqZ 0 bins) = Z.to_nat bins.
Proof.
  intros Hrun. apply analyze_color_Return in Hrun as (c & _ & _ & _ & Hres & _).
  injection Hres as -> -> ->. split; [done|]. split; [done|]. apply length_seqZ.
Qed.


(** X6: with an accepted image and mask, a bin count of 0 ends the call in
    [ZeroDivisionError] at the first quantization, before the selector is
    looked at. *)
Theorem zero_bins_division_error rgb mask t w h wd :
  shape rgb = [h; wd; 3%nat] → cv2.size_8UC1 mask = Some (h, wd) → (0 < h * wd)%nat →
  analyze_color lab hsv upper rgb mask 0 t w
    = (bump w, Raise (ZeroDivisionError "division by zero")).
Proof.
  intros Hs Hm Hn. rewrite analyze_color_unfold.
  destruct (split_channels_Return lab hsv rgb mask h wd Hs Hm Hn) as [c ->].
  rewrite Hs. cbn [length Nat.ltb Nat.leb]. by rewrite norm_channels_zero.
Qed.

End further.

(** X1 on a one-pixel image with 256 bins. *)
Lemma histograms_well_formed_witness :
  ∃ w' hd data figs,
    analyze_color cv2_8u.achromatic_Lab cv2_8u.COLOR_BGR2HSV py.upper
      (image_1x1 10 200 100) (mask_1x1 1) 256 (Some "LAB") stored_world
      = (w', Return (hd, data, figs)) ∧
    length (take 9 (drop 3 data)) = 9%nat ∧
    Forall (λ x, ∃ hist, x = VList hist ∧
                   length hist = Z.to_nat 256 ∧
                   Forall (λ n, 0 ≤ n) hist ∧
                   sum_hist hist ≤ masked_in (flat (mask_1x1 1)))
           (take 9 (drop 3 data)).
Proof.
  destruct (analyze_color cv2_8u.achromatic_Lab cv2_8u.COLOR_BGR2HSV py.upper
              (image_1x1 10 200 100) (mask_1x1 1) 256 (Some "LAB") stored_world)
    as [w' [[[hd data] figs]|e]] eqn:E.
  - exists w', hd, data, figs. split; [reflexivity|].
    apply (histograms_well_formed _ _ _ _ _ _ _ _ _ _ _ _ E).
    vm_compute. discriminate.
  - exfalso. vm_compute in E. discriminate.
Defined.

(** X2 on two 1 x 2 images that differ in the masked-out pixel only. *)
Lemma masked_out_pixels_ignored_witness :
  analyze_color cv2_8u.achromatic_Lab cv2_8u.COLOR_BGR2HSV py.upper
    (mk_ndarray [1; 2; 3]%nat [10; 200; 100; 7; 8; 9])
    (mk_ndarray [1; 2]%nat [255; 0]) 16 None fresh_world
  = analyze_color cv2_8u.achromatic_Lab cv2_8u.COLOR_BGR2HSV py.upper
      (mk_ndarray [1; 2; 3]%nat [10; 200; 100; 0; 255; 255])
      (mk_ndarray [1; 2]%nat [255; 0]) 16 None fresh_world.
Proof.
  apply (masked_out_pixels_ignored cv2_8u.achromatic_Lab cv2_8u.COLOR_BGR2HSV py.upper
           (mk_ndarray [1; 2; 3]%nat [10; 200; 100; 0; 255; 255])
           (mk_ndarray [1; 2; 3]%nat [10; 200; 100; 7; 8; 9])
           (mk_ndarray [1; 2]%nat [255; 0]) 16 None fresh_world 1%nat 2%nat).
  - reflexivity.
  - reflexivity.
  - reflexivity.
  - intros i. cbn [flat].
    destruct i as [|[|[|[|[|[|i]]]]]]; cbn; try reflexivity; intros H; by destruct H.
Defined.

(** X3 with four bins. *)
Lemma bin_axis_witness :
  ∃ w' hd data figs,
    analyze_color cv2_8u.achromatic_Lab cv2_8u.COLOR_BGR2HSV py.upper
      (image_1x1 10 200 100) (mask_1x1 1) 4 None fresh_world
      = (w', Return (hd, data, figs)) ∧
    data !! 1%nat = Some (VInt 4) ∧
    data !! 2%nat = Some (VList (seqZ 0 4)) ∧
    length (seqZ 0 4) = Z.to_nat 4.
Proof.
  destruct (analyze_color cv2_8u.achromatic_Lab cv2_8u.COLOR_BGR2HSV py.upper
              (image_1x1 10 200 100) (mask_1x1 1) 4 None fresh_world)
    as [w' [[[hd data] figs]|e]] eqn:E.
  - exists w', hd, data, figs. split; [reflexivity|].
    exact (bin_axis _ _ _ _ _ _ _ _ _ _ _ _ E).
  - exfalso. vm_compute in E. discriminate.
Defined.

(** X6 with an invalid selector: the division fails first. *)
Lemma zero_bins_division_error_witness :
  analyze_color cv2_8u.achromatic_Lab cv2_8u.COLOR_BGR2HSV py.upper
    (image_1x1 0 255 0) (mask_1x1 255) 0 (Some "xyz") stored_world
  = (bump stored_world, Raise (ZeroDivisionError "division by zero")).
Proof.
  apply (zero_bins_division_error cv2_8u.achromatic_Lab cv2_8u.COLOR_BGR2HSV py.upper
           (image_1x1 0 255 0) (mask_1x1 255) (Some "xyz") stored_world 1%nat 1%nat).
  - reflexivity.
  - reflexivity.
  - lia.
Defined.


(** ** The hue observations in closed form *)

Lemma count_occ_filter_nonzero (h : list Z) (v : Z) :
  count_occ Z.eq_dec (filter (λ x, x ≠ 0) h) v =
    if decide (v = 0) then 0%nat else count_occ Z.eq_dec h v.
Proof.
  induction h as [|x h IH]; [by destruct (decide (v = 0))|].
  rewrite filter_cons. destruct (decide (x ≠ 0)) as [Hx|Hx]; cbn [count_occ].
  - rewrite IH. destruct (Z.eq_dec x v) as [->|]; [|done]. by destruct (decide (v = 0)).
  - rewrite IH. assert (x = 0) as -> by lia.
    destruct (Z.eq_dec 0 v) as [<-|]; [|done]. by destruct (decide (0 = 0)).
Qed.

(** X7: lines 157-176 as a whole (Counter, deletion of key 0, sorting,
    index loop) produce the hue values other than 0 in ascending order,
    each as often as it occurs in the plane. *)
Theorem temp_hue_list_sorted_nonzero (h : list Z) :
  temp_hue_list h = Return (merge_sort Z.le (filter (λ x, x ≠ 0) h)).
Proof.
  rewrite temp_hue_list_Return. f_equal.
  apply (StronglySorted_unique Z.le).
  - apply hue_observations_sorted.
  - apply StronglySorted_merge_sort; apply _.
  - apply (Permutation_count_occ Z.eq_dec). intros v.
    rewrite hue_observations_count.
    rewrite (count_occ_Permutation (merge_sort Z.le (filter (λ x, x ≠ 0) h))
               (filter (λ x, x ≠ 0) h)) by apply merge_sort_Permutation.
    by rewrite count_occ_filter_nonzero.
Qed.

(** ** Quantization and histogram on bytes *)

Lemma quantized_table :
  forallb (λ bins, bool_decide (quantized bins (seqZ 0 256) = level bins <$> seqZ 0 256))
    (seqZ 1 256) = true.
Proof. vm_compute. reflexivity. Qed.

Lemma hist_bin_table :
  forallb (λ bins,
             forallb (λ j, bool_decide (cv2.hist_bin bins 0 (bins - 1) j
                                        = bin_of_level bins j))
               (seqZ 0 bins))
    (seqZ 2 255) = true.
Proof. vm_compute. reflexivity. Qed.

Lemma level_range bins v :
  1 ≤ bins ≤ 256 → 0 ≤ v ≤ 255 → 0 ≤ level bins v ≤ bins - 1.
Proof.
  intros Hb Hv. unfold level. case_bool_decide as Hin.
  - unfold rounded_down in Hin. rewrite !elem_of_cons, elem_of_nil in Hin.
    destruct Hin as [[= -> ->]|[[= -> ->]|[[= -> ->]|[[= -> ->]|[[= -> ->]|[]]]]]];
      by vm_compute.
  - split; [apply Z.div_pos; lia|].
    assert ((v * bins) `div` 256 < bins); [|lia].
    apply Z.div_lt_upper_bound; nia.
Qed.

Lemma quantized_byte bins v :
  1 ≤ bins ≤ 256 → 0 ≤ v ≤ 255 → quantized bins [v] = [level bins v].
Proof.
  intros Hb Hv. pose proof quantized_table as Ht.
  rewrite forallb_forall in Ht. specialize (Ht bins).
  rewrite <- list_elem_of_In, elem_of_seqZ in Ht. specialize (Ht ltac:(lia)).
  apply bool_decide_eq_true in Ht.
  apply (f_equal (λ l, l !! Z.to_nat v)) in Ht.
  unfold quantized, np.astype_uint8, np.divide in Ht |- *.
  rewrite !list_lookup_fmap in Ht.
  rewrite (lookup_seqZ_lt 0 256 (Z.to_nat v)) in Ht by lia.
  rewrite Z.add_0_l, Z2Nat.id in Ht by lia. cbn in Ht |- *. by injection Ht as ->.
Qed.

Lemma quantized_levels bins ch :
  1 ≤ bins ≤ 256 → Forall (λ v, 0 ≤ v ≤ 255) ch →
  quantized bins ch = level bins <$> ch.
Proof.
  intros Hb Hch. induction Hch as [|v ch Hv _ IH]; [done|].
  change (quantized bins (v :: ch)) with (quantized bins [v] ++ quantized bins ch).
  by rewrite quantized_byte, IH.
Qed.

(** X8: for 1 to 256 bins a channel of bytes is quantized, byte by byte,
    to the integer quotient [v * bins / 256], except that the value 128 is
    put one level lower for 186, 198, 210, 234 and 246 bins, where the
    double division falls short of the exact quotient; every level lies
    between 0 and [bins - 1], and 256 bins change nothing. *)
Theorem quantize_levels ch bins :
  1 ≤ bins ≤ 256 → Forall (λ v, 0 ≤ v ≤ 255) ch →
  quantize ch bins = Return (level bins <$> ch) ∧
  Forall (λ x, 0 ≤ x ≤ bins - 1) (level bins <$> ch) ∧
  (bins = 256 → level bins <$> ch = ch).
Proof.
  intros Hb Hch. rewrite quantize_Return by lia. split; [|split].
  - f_equal. by apply quantized_levels.
  - apply Forall_fmap. eapply Forall_impl; [exact Hch|].
    intros v Hv. by apply level_range.
  - intros ->. induction Hch as [|v ch Hv _ IH]; [done|].
    cbn [fmap list_fmap]. f_equal; [|exact IH].
    unfold level. rewrite bool_decide_false.
    + by rewrite Z.div_mul.
    + unfold rounded_down. rewrite !elem_of_cons, elem_of_nil. intros H.
      destruct H as [[=]|[[=]|[[=]|[[=]|[[=]|[]]]]]].
Qed.

Section lookup.

Variable tab : Z → option nat.

Lemma hist_step_lookup (H : list Z) (p : Z * Z) (i : nat) :
  cv2.hist_step tab H p !! i =
    (λ x, x + (if bool_decide (p.2 ≠ 0 ∧ tab p.1 = Some i) then 1 else 0)) <$> H !! i.
Proof.
  destruct p as [v m]. unfold cv2.hist_step. cbn [fst snd].
  destruct (m =? 0) eqn:Hm.
  - apply Z.eqb_eq in Hm as ->. rewrite bool_decide_false by (by intros [? _]).
    destruct (H !! i); cbn; [f_equal; lia|done].
  - apply Z.eqb_neq in Hm. destruct (tab v) as [k|] eqn:Hk.
    + destruct (decide (k = i)) as [->|Hne].
      * rewrite list_lookup_alter_eq, bool_decide_true by done.
        destruct (H !! i); cbn; [f_equal; lia|done].
      * rewrite list_lookup_alter_ne by done.
        rewrite bool_decide_false by (intros [_ [= ?]]; done).
        destruct (H !! i); cbn; [f_equal; lia|done].
    + rewrite bool_decide_false by (by intros [_ ?]).
      destruct (H !! i); cbn; [f_equal; lia|done].
Qed.

(** Entry [i] grows by the number of masked-in pixels whose value the
    table sends to bin [i]. *)
Lemma hist_foldl_lookup (ps : list (Z * Z)) (H : list Z) (i : nat) :
  foldl (cv2.hist_step tab) H ps !! i =
    (λ x, x + Z.of_nat (length (filter (λ p, p.2 ≠ 0 ∧ tab p.1 = Some i) ps)))
      <$> H !! i.
Proof.
  revert H. induction ps as [|p ps IH]; intros H.
  - rewrite filter_nil. cbn. destruct (H !! i); cbn; [f_equal; lia|done].
  - cbn [foldl]. rewrite IH, hist_step_lookup, filter_cons.
    destruct (H !! i) as [x|]; [|done]. cbn [fmap option_fmap option_map]. f_equal.
    destruct (decide (p.2 ≠ 0 ∧ tab p.1 = Some i)) as [Hp|Hp].
    + rewrite bool_decide_true by done. cbn [length]. lia.
    + rewrite bool_decide_false by done. lia.
Qed.

End lookup.

Lemma filter_length_ext {A} (P Q : A → Prop) `{!∀ x, Decision (P x)}
    `{!∀ x, Decision (Q x)} (l : list A) :
  Forall (λ x, P x ↔ Q x) l → length (filter P l) = length (filter Q l).
Proof.
  induction 1 as [|x l Hx _ IH]; [done|]. rewrite !filter_cons.
  destruct (decide (P x)) as [HP|HP].
  - rewrite decide_True by tauto. cbn. by rewrite IH.
  - rewrite decide_False by tauto. exact IH.
Qed.

Lemma hist_bin_level bins j :
  2 ≤ bins ≤ 256 → 0 ≤ j ≤ bins - 1 →
  cv2.hist_bin bins 0 (C.float (bins - 1)) j = bin_of_level bins j.
Proof.
  intros Hb Hj. rewrite C_float_small by lia. pose proof hist_bin_table as Ht.
  rewrite forallb_forall in Ht. specialize (Ht bins).
  rewrite <- list_elem_of_In, elem_of_seqZ in Ht. specialize (Ht ltac:(lia)).
  rewrite forallb_forall in Ht. specialize (Ht j).
  rewrite <- list_elem_of_In, elem_of_seqZ in Ht. specialize (Ht ltac:(lia)).
  by apply bool_decide_eq_true in Ht.
Qed.

(** Count [i] of a histogram over levels between 0 and [bins - 1]. *)
Lemma counts_of_lookup norm mask bins (i : nat) :
  2 ≤ bins ≤ 256 → Forall (λ x, 0 ≤ x ≤ bins - 1) norm →
  (i < Z.to_nat bins)%nat →
  counts_of bins mask norm !! i =
    Some (if bool_decide (Z.of_nat i = bins - 1) then 0
          else Z.of_nat (length (filter (λ p, p.2 ≠ 0 ∧ p.1 = Z.of_nat i)
                                   (zip norm mask)))).
Proof.
  intros Hb Hn Hi. unfold counts_of, cv2.hist_counts.
  rewrite hist_foldl_lookup, lookup_replicate_2 by done.
  cbn [fmap option_fmap option_map]. f_equal. rewrite Z.add_0_l.
  assert (Forall (λ p : Z * Z, 0 ≤ p.1 ≤ bins - 1) (zip norm mask)) as Hz.
  { clear -Hn. revert mask. induction Hn as [|x norm Hx _ IH]; intros [|m mask];
      cbn; constructor; [done|apply IH]. }
  case_bool_decide as Htop.
  - rewrite (filter_length_ext _ (λ _, False)).
    + clear. induction (zip norm mask) as [|p l IH]; [done|].
      by rewrite filter_cons, decide_False by tauto.
    + eapply Forall_impl; [exact Hz|]. intros [v m] Hv. cbn [fst snd] in *.
      rewrite hist_bin_level by lia. unfold bin_of_level.
      split; [|done]. intros [_ Hbin]. case_bool_decide as Hc; [|done].
      injection Hbin as Hbin. lia.
  - f_equal. apply filter_length_ext.
    eapply Forall_impl; [exact Hz|]. intros [v m] Hv. cbn [fst snd] in *.
    rewrite hist_bin_level by lia. unfold bin_of_level.
    split.
    + intros [Hm Hbin]. case_bool_decide as Hc; [|done].
      injection Hbin as Hbin. split; [done|lia].
    + intros [Hm ->]. split; [done|]. rewrite bool_decide_true by lia.
      by rewrite Nat2Z.id.
Qed.

(** X9: for 2 to 256 bins, a quantized channel with levels between 0 and
    [bins - 1] and at most 2^24 pixels masked in, entry [i] of the
    histogram [cv2.calcHist] returns is the number of masked-in pixels at
    level [i], except for the last entry, which is 0 whatever the pixels:
    the top level is the excluded end of the range. *)
Theorem calcHist_counts norm mask bins hist (i : nat) :
  2 ≤ bins ≤ 256 → Forall (λ x, 0 ≤ x ≤ bins - 1) norm →
  masked_in mask ≤ 2 ^ 24 →
  cv2.calcHist norm mask bins (0, bins - 1) = Return hist →
  (i < Z.to_nat bins)%nat →
  hist !! i =
    Some (if bool_decide (Z.of_nat i = bins - 1) then 0
          else Z.of_nat (length (filter (λ p, p.2 ≠ 0 ∧ p.1 = Z.of_nat i)
                                   (zip norm mask)))).
Proof.
  intros Hb Hn Hm Hrun Hi. rewrite calcHist_Return in Hrun by (unfold C.INT_MAX; lia).
  injection Hrun as <-. rewrite hist_of_exact by done. by apply counts_of_lookup.
Qed.

(** ** The channels, pixel by pixel *)

Lemma plane_lookup c n k data i :
  (i < n)%nat → cv2.plane c n k data !! i = Some (data !!! (i * c + k)%nat).
Proof.
  intros Hi. unfold cv2.plane. rewrite list_lookup_fmap, lookup_seq_lt by done. done.
Qed.

Lemma plane_length c n k data : length (cv2.plane c n k data) = n.
Proof. unfold cv2.plane. by rewrite length_fmap, length_seq. Qed.

Lemma triples_lookup (f : nat → list Z) j n i k :
  (∀ a, length (f a) = 3%nat) → (i < n)%nat → (k < 3)%nat →
  (seq j n ≫= f) !!! (i * 3 + k)%nat = f (j + i)%nat !!! k.
Proof.
  intros Hf. revert j i. induction n as [|n IH]; intros j i Hi Hk; [lia|].
  cbn [seq]. rewrite bind_cons. destruct i as [|i].
  - rewrite Nat.add_0_r. cbn [Nat.mul Nat.add].
    rewrite !list_lookup_total_alt, lookup_app_l by (rewrite Hf; lia). done.
  - rewrite !list_lookup_total_alt, lookup_app_r by (rewrite Hf; lia).
    rewrite Hf. replace (S i * 3 + k - 3)%nat with (i * 3 + k)%nat by lia.
    rewrite <- !list_lookup_total_alt, IH by lia.
    by replace (j + S i)%nat with (S j + i)%nat by lia.
Qed.

Lemma masked_bytes_lookup (rgb mask : ndarray) j :
  (j < length (flat rgb))%nat →
  masked_bytes rgb mask !!! j
  = if flat mask !!! (j / 3)%nat =? 0 then 0 else flat rgb !!! j.
Proof.
  intros Hj. unfold masked_bytes. destruct (lookup_lt_is_Some_2 _ _ Hj) as [x Hx].
  erewrite list_lookup_total_correct; [|by rewrite list_lookup_imap, Hx].
  rewrite (list_lookup_total_correct _ _ _ Hx). by rewrite Z.land_diag.
Qed.

Section per_pixel.

Variables lab hsv : Z * Z * Z → Z * Z * Z.

Lemma split_channels_Return_planes rgb mask h wd c :
  shape rgb = [h; wd; 3%nat] → cv2.size_8UC1 mask = Some (h, wd) →
  split_channels lab hsv rgb mask = Return c →
  c = planes_of lab hsv rgb mask (h * wd).
Proof.
  intros Hs Hm Hc.
  destruct (split_channels_shape lab hsv rgb mask c Hc) as (h' & wd' & Hs' & _ & Hn).
  rewrite Hs in Hs'. injection Hs' as <- <-.
  rewrite (split_channels_planes lab hsv rgb mask h wd) in Hc by done.
  by injection Hc as <-.
Qed.

(** Each of the nine planes of lines 39-44 has one entry per pixel. *)
Lemma split_channels_length rgb mask h wd c :
  shape rgb = [h; wd; 3%nat] → cv2.size_8UC1 mask = Some (h, wd) →
  split_channels lab hsv rgb mask = Return c →
  Forall (λ ch, length ch = (h * wd)%nat) (channel_list c).
Proof.
  intros Hs Hm Hc. rewrite (split_channels_Return_planes rgb mask h wd c) by done.
  unfold channel_list, planes_of.
  cbn [ch_b ch_g ch_r ch_l ch_m ch_y ch_h ch_s ch_v].
  repeat constructor; apply plane_length.
Qed.

(** The planes of lines 39-44, entry by entry. *)
Lemma split_channels_lookup rgb mask h wd c i :
  shape rgb = [h; wd; 3%nat] → cv2.size_8UC1 mask = Some (h, wd) →
  length (flat rgb) = (h * wd * 3)%nat →
  split_channels lab hsv rgb mask = Return c →
  (i < h * wd)%nat →
  (λ ch : list Z, ch !! i) <$> channel_list c
    = Some <$> components lab hsv (masked_pixel rgb mask i).
Proof.
  intros Hs Hm Hlen Hc Hi. set (p := masked_pixel rgb mask i).
  rewrite (split_channels_Return_planes rgb mask h wd c) by done.
  unfold channel_list, components, planes_of.
  cbn [ch_b ch_g ch_r ch_l ch_m ch_y ch_h ch_s ch_v fmap list_fmap].
  assert (∀ k, (k < 3)%nat →
    masked_bytes rgb mask !!! (3 * i + k)%nat
    = if flat mask !!! i =? 0 then 0 else flat rgb !!! (3 * i + k)%nat) as Hpix.
  { intros k Hk. rewrite masked_bytes_lookup by lia.
    replace ((3 * i + k) / 3)%nat with i; [done|].
    rewrite (Nat.mul_comm 3 i), Nat.div_add_l, Nat.div_small by lia. lia. }
  assert (∀ code : Z * Z * Z → Z * Z * Z, ∀ k, (k < 3)%nat →
    converted_bytes code (h * wd) (masked_bytes rgb mask) !!! (i * 3 + k)%nat
    = (let '(x, y, z) := code p in [x; y; z]) !!! k) as Hconv.
  { intros code k Hk. unfold converted_bytes.
    rewrite triples_lookup; [|by intros a; destruct (code _) as [[??]?]|done|done].
    cbn [Nat.add]. pose proof (Hpix 0%nat ltac:(lia)) as H0. rewrite Nat.add_0_r in H0.
    rewrite H0, (Hpix 1%nat), (Hpix 2%nat) by lia.
    unfold p, masked_pixel, pixel. by destruct (flat mask !!! i =? 0). }
  rewrite !plane_lookup by done.
  rewrite (Nat.mul_comm i 3), !Hpix by lia.
  rewrite (Nat.mul_comm 3 i), !Hconv by lia.
  destruct (lab p) as [[??]?], (hsv p) as [[??]?].
  unfold p, masked_pixel, pixel. rewrite Nat.add_0_r, (Nat.mul_comm i 3).
  by destruct (flat mask !!! i =? 0).
Qed.

(** X10: for an (h, w, 3) image of h * w * 3 bytes and a mask of that
    size, each of the nine planes has h * w entries, and at pixel [i] the
    blue, green and red planes hold the bytes of the pixel, or 0 where the
    mask byte is zero, while the Lab and HSV planes hold the components of
    the conversions of that masked pixel. *)
Theorem split_channels_per_pixel rgb mask h wd c i :
  shape rgb = [h; wd; 3%nat] → cv2.size_8UC1 mask = Some (h, wd) →
  length (flat rgb) = (h * wd * 3)%nat →
  split_channels lab hsv rgb mask = Return c →
  (i < h * wd)%nat →
  let p := masked_pixel rgb mask i in
  (ch_b c !! i, ch_g c !! i, ch_r c !! i) = (Some p.1.1, Some p.1.2, Some p.2) ∧
  (ch_l c !! i, ch_m c !! i, ch_y c !! i)
    = (Some (lab p).1.1, Some (lab p).1.2, Some (lab p).2) ∧
  (ch_h c !! i, ch_s c !! i, ch_v c !! i)
    = (Some (hsv p).1.1, Some (hsv p).1.2, Some (hsv p).2) ∧
  Forall (λ ch, length ch = (h * wd)%nat)
    [ch_b c; ch_g c; ch_r c; ch_l c; ch_m c; ch_y c; ch_h c; ch_s c; ch_v c].
Proof.
  intros Hs Hm Hlen Hc Hi p.
  pose proof (split_channels_lookup rgb mask h wd c i Hs Hm Hlen Hc Hi) as Hl.
  pose proof (split_channels_length rgb mask h wd c Hs Hm Hc) as Hn.
  unfold channel_list, components in Hl. cbn [fmap list_fmap] in Hl.
  injection Hl as Hb Hg Hr Hl Ha Hy Hh Hsat Hv.
  split; [|split; [|split]].
  - by rewrite Hb, Hg, Hr.
  - by rewrite Hl, Ha, Hy.
  - by rewrite Hh, Hsat, Hv.
  - exact Hn.
Qed.

End per_pixel.

(** ** The histograms, pixel by pixel *)

Lemma filter_fmap_length {A B} (f : A → B) (P : B → Prop) `{!∀ x, Decision (P x)}
    (l : list A) :
  length (filter P (f <$> l)) = length (filter (λ x, P (f x)) l).
Proof.
  induction l as [|x l IH]; [done|]. cbn [fmap list_fmap]. rewrite !filter_cons.
  destruct (decide (P (f x))); cbn [length]; by rewrite IH.
Qed.

Lemma filter_zip_index (P : Z → Z → Prop) `{!∀ x y, Decision (P x y)} (a m : list Z) :
  length a = length m →
  length (filter (λ p, P p.1 p.2) (zip a m))
  = length (filter (λ k, P (a !!! k) (m !!! k)) (seq 0 (length a))).
Proof.
  revert m. induction a as [|x a IH]; intros [|y m] Hlen; try done.
  cbn [zip zip_with length seq]. rewrite <- fmap_S_seq.
  assert (length (filter (λ p, P p.1 p.2) (zip a m))
          = length (filter (λ k, P ((x :: a) !!! k) ((y :: m) !!! k))
                      (S <$> seq 0 (length a)))) as Htl.
  { rewrite filter_fmap_length, IH by (cbn in Hlen; lia). done. }
  destruct (decide (P x y)) as [HP|HP].
  - rewrite (filter_cons_True _ (x, y)), (filter_cons_True _ 0%nat) by done.
    cbn [length]. by rewrite Htl.
  - rewrite (filter_cons_False _ (x, y)), (filter_cons_False _ 0%nat) by done.
    exact Htl.
Qed.

Lemma color_data_lookup bins bv hist cm cs med (ch : nat) :
  (ch < 9)%nat →
  color_data bins bv hist cm cs med !! (3 + ch)%nat = VList <$> channel_list hist !! ch.
Proof.
  intros Hch. do 9 (destruct ch as [|ch]; [reflexivity|]). lia.
Qed.

Lemma channel_list_map f c :
  channel_list (map_channels f c) = f <$> channel_list c.
Proof. reflexivity. Qed.

Section counts.

Variables lab hsv : Z * Z * Z → Z * Z * Z.
Variable upper : string → string.

(** X11: on an (h, w, 3) image of h * w * 3 values and a mask of h * w
    values with at most 2^24 of them non-zero, where the nine values of
    every masked pixel are bytes, a call with at most 256 bins that returns
    reports, as entry [i] of the histogram of channel [ch], the number of
    pixels with a non-zero mask byte whose value in that channel has level
    [i], except for the last entry, which is 0: the pixels of the top
    level are not counted. *)
Theorem histograms_count_pixels rgb mask bins t w w' hd data figs h wd (ch i : nat) :
  analyze_color lab hsv upper rgb mask bins t w = (w', Return (hd, data, figs)) →
  shape rgb = [h; wd; 3%nat] →
  length (flat rgb) = (h * wd * 3)%nat → length (flat mask) = (h * wd)%nat →
  masked_in (flat mask) ≤ 2 ^ 24 →
  (∀ k, (k < h * wd)%nat →
     Forall (λ v, 0 ≤ v ≤ 255) (components lab hsv (masked_pixel rgb mask k))) →
  bins ≤ 256 → (ch < 9)%nat → (i < Z.to_nat bins)%nat →
  ∃ hist,
    data !! (3 + ch)%nat = Some (VList hist) ∧
    hist !! i =
      Some (if bool_decide (Z.of_nat i = bins - 1) then 0
            else Z.of_nat (length (filter
                   (λ k, flat mask !!! k ≠ 0 ∧
                         level bins (components lab hsv (pixel rgb k) !!! ch) = Z.of_nat i)
                   (seq 0 (h * wd))))).
Proof.
  intros Hrun Hs Hlen Hmask Hin Hbytes Hb256 Hch Hi.
  destruct (analyze_color_Return lab hsv upper _ _ _ _ _ _ _ Hrun)
    as (c & Hc & Hb & _ & Hres & _).
  unfold results_of in Hres. injection Hres as _ -> _.
  destruct (split_channels_shape lab hsv rgb mask c Hc) as (h' & wd' & Hs' & Hm & _).
  rewrite Hs in Hs'. injection Hs' as <- <-.
  assert (∃ plane, channel_list c !! ch = Some plane) as [plane Hplane].
  { apply lookup_lt_is_Some_2. cbn. lia. }
  assert (length plane = (h * wd)%nat) as Hn.
  { exact (Forall_lookup_1 _ _ _ _
             (split_channels_length lab hsv rgb mask h wd c Hs Hm Hc) Hplane). }
  assert (∀ k, (k < h * wd)%nat →
            plane !! k = Some (components lab hsv (masked_pixel rgb mask k) !!! ch))
    as Hk.
  { intros k Hlt.
    pose proof (split_channels_lookup lab hsv rgb mask h wd c k Hs Hm Hlen Hc Hlt)
      as Heq.
    apply (f_equal (λ l, l !! ch)) in Heq. rewrite !list_lookup_fmap, Hplane in Heq.
    cbn [fmap option_fmap option_map] in Heq.
    destruct (components lab hsv (masked_pixel rgb mask k) !! ch) as [x|] eqn:Hx;
      [|discriminate].
    rewrite (list_lookup_total_correct _ _ _ Hx).
    cbn [option_map] in Heq. by injection Heq as ->. }
  assert (Forall (λ v, 0 ≤ v ≤ 255) plane) as Hbyte.
  { apply Forall_lookup_2. intros k x Hx.
    assert (k < h * wd)%nat as Hlt by (rewrite <- Hn; by eapply lookup_lt_Some).
    rewrite (Hk k Hlt) in Hx. injection Hx as <-.
    apply (Forall_lookup_1 _ _ ch _ (Hbytes k Hlt)).
    apply list_lookup_lookup_total_lt. cbn. lia. }
  exists (hist_of bins (flat mask) (quantized bins plane)). split.
  { rewrite color_data_lookup, !channel_list_map, !list_lookup_fmap, Hplane by done.
    reflexivity. }
  rewrite quantized_levels by (done || lia).
  rewrite hist_of_exact by done.
  rewrite counts_of_lookup; [|lia| |done].
  2:{ apply Forall_fmap. eapply Forall_impl; [exact Hbyte|].
      intros v Hv. apply level_range; [lia|done]. }
  f_equal. case_bool_decide; [done|]. f_equal.
  pose proof (filter_zip_index (λ x m, m ≠ 0 ∧ x = Z.of_nat i)
                (level bins <$> plane) (flat mask)) as Hz.
  cbn beta in Hz. rewrite Hz by (rewrite length_fmap; lia). clear Hz.
  rewrite length_fmap, Hn. apply filter_length_ext.
  apply Forall_forall. intros k Hk'. apply elem_of_seq in Hk'.
  assert (k < h * wd)%nat as Hlt by lia.
  rewrite (list_lookup_total_fmap (level bins) plane k) by lia.
  rewrite (list_lookup_total_correct _ _ _ (Hk k Hlt)).
  unfold masked_pixel. split; intros [Hnz Hl]; (split; [done|]).
  - destruct (Z.eqb_spec (flat mask !!! k) 0); [done|exact Hl].
  - destruct (Z.eqb_spec (flat mask !!! k) 0); [done|exact Hl].
Qed.

End counts.

(** ** The world after a call *)

Section world.

Variables lab hsv : Z * Z * Z → Z * Z * Z.
Variable upper : string → string.

(** X5: a call that raises, whatever the exception, leaves a world that
    differs from the one it found in the device counter only: no file is
    saved, no figure printed, nothing stored. *)
Theorem failure_changes_device_only rgb mask bins t w w' e :
  analyze_color lab hsv upper rgb mask bins t w = (w', Raise e) → w' = bump w.
Proof.
  rewrite analyze_color_unfold.
  destruct (length (shape rgb) <? 3)%nat; [by intros [= <- _]|].
  destruct (split_channels lab hsv rgb mask) as [c|]; [|by intros [= <- _]].
  destruct (norm_channels c bins) as [norm|]; [|by intros [= <- _]].
  destruct (plot_type_rejected upper t); [by intros [= <- _]|].
  destruct (histograms norm mask bins) as [hist|]; [|by intros [= <- _]].
  destruct (temp_hue_list (ch_h c)) as [temp|]; [|by intros [= <- _]].
  cbv zeta. destruct (debug_output _ _ _) as [w2 [[]|e2]] eqn:Hd.
  - by rewrite store_results_run.
  - intros [= <- _]. by apply debug_output_exn in Hd as [-> _].
Qed.

(** X12: the debug output of a call that returns.  Without a selector
    nothing is saved or printed, whatever the debug mode.  With a selector
    and mode "print" exactly one file is saved: the returned figure, under
    the output directory joined with the incremented device number
    followed by "_analyze_color_hist.png"; with mode "plot" the returned
    figure is printed; in any other mode nothing happens. *)
Theorem debug_effects rgb mask bins t w w' hd data figs :
  analyze_color lab hsv upper rgb mask bins t w = (w', Return (hd, data, figs)) →
  match t with
  | None => figs = [] ∧ saved w' = saved w ∧ printed w' = printed w
  | Some _ =>
      ∃ fig, figs = [fig] ∧
        saved w' =
          saved w ++
            (if bool_decide (debug (params w) = Some "print")
             then [(path_join (debug_outdir (params w))
                      (pretty (device (params w) + 1) +:+ "_analyze_color_hist.png"),
                    fig)]
             else []) ∧
        printed w' =
          printed w ++
            (if bool_decide (debug (params w) = Some "plot") then [fig] else [])
  end.
Proof.
  intros Hrun.
  pose proof (analyze_color_Return_env _ _ _ _ _ _ _ _ _ _ Hrun) as (_ & Hsave & _).
  revert Hrun. rewrite analyze_color_unfold.
  destruct (length (shape rgb) <? 3)%nat; [done|].
  destruct (split_channels lab hsv rgb mask) as [c|]; [|done].
  destruct (norm_channels c bins) as [norm|]; [|done].
  destruct (plot_type_rejected upper t) eqn:Ht; [done|].
  destruct (histograms norm mask bins) as [hist|]; [|done].
  destruct (temp_hue_list (ch_h c)) as [temp|]; [|done].
  cbv zeta.
  pose proof (make_figures_length upper (dataset (np.arange bins) hist) bins t Ht) as Hlen.
  destruct t as [s|].
  - destruct (make_figures _ _ _ _) as [|fig [|]] eqn:Hf; try done.
    cbn [head]. rewrite debug_output_run by exact Hsave. rewrite store_results_run.
    intros [= <- _ _ <-]. exists fig. split; [done|]. cbn [saved printed params bump].
    cbn [device debug debug_outdir].
    split; f_equal; repeat case_bool_decide; try done;
      match goal with H : ¬ _ |- _ => destruct H; by eauto | H : _ ∧ _ |- _ => by destruct H end.
  - destruct (make_figures _ _ _ _) as [|fig ?] eqn:Hf; [|done].
    rewrite debug_output_None, store_results_run. by intros [= <- _ _ <-].
Qed.

(** X13: the outcome of a call (the returned lists, or the exception)
    depends on the world through the debug save only: in two worlds in
    which the save is possible or not attempted the outcome is the same,
    whatever the stored measurements, the device counter and the debug
    mode. *)
Theorem outcome_independent_of_world rgb mask bins t w1 w2 :
  save_possible w1 t → save_possible w2 t →
  (analyze_color lab hsv upper rgb mask bins t w1).2
  = (analyze_color lab hsv upper rgb mask bins t w2).2.
Proof.
  intros Hsave1 Hsave2. rewrite !analyze_color_unfold.
  destruct (length (shape rgb) <? 3)%nat; [done|].
  destruct (split_channels lab hsv rgb mask) as [c|]; [|done].
  destruct (norm_channels c bins) as [norm|]; [|done].
  destruct (plot_type_rejected upper t) eqn:Ht; [done|].
  destruct (histograms norm mask bins) as [hist|]; [|done].
  destruct (temp_hue_list (ch_h c)) as [temp|]; [|done].
  cbv zeta.
  pose proof (make_figures_length upper (dataset (np.arange bins) hist) bins t Ht) as Hlen.
  assert (t = None ∨ is_Some (head (make_figures upper (dataset (np.arange bins) hist) bins t)))
    as Hfig.
  { destruct t; [right|by left]. by destruct (make_figures _ _ _ _). }
  destruct (debug_output_Return t _ (bump w1) Hfig Hsave1) as [w1' ->].
  destruct (debug_output_Return t _ (bump w2) Hfig Hsave2) as [w2' ->].
  by rewrite !store_results_run.
Qed.

Lemma stored_fields_union bins bv hist cm cs med old :
  stored_fields bins bv hist cm cs med old
  = stored_fields bins bv hist cm cs med ∅ ∪ old.
Proof. unfold stored_fields. by rewrite <- !insert_union_l, (left_id_L ∅ (∪)). Qed.

Lemma stored_fields_idem bins bv hist cm cs med old :
  stored_fields bins bv hist cm cs med (stored_fields bins bv hist cm cs med old)
  = stored_fields bins bv hist cm cs med old.
Proof.
  rewrite (stored_fields_union _ _ _ _ _ _ (stored_fields _ _ _ _ _ _ old)).
  rewrite (stored_fields_union _ _ _ _ _ _ old).
  by rewrite (assoc_L (∪)), (idemp_L (∪)).
Qed.

(** X14: repeating a call that returned, with the same arguments, returns
    the same lists again and leaves every measurement as the first call
    left it; only the figure list is appended once more and the device
    counter goes up again. *)
Theorem repeated_call rgb mask bins t w w1 res :
  analyze_color lab hsv upper rgb mask bins t w = (w1, Return res) →
  ∃ w2,
    analyze_color lab hsv upper rgb mask bins t w1 = (w2, Return res) ∧
    measurements (outputs w2) = measurements (outputs w1) ∧
    images (outputs w2) = images (outputs w) ++ [res.2; res.2] ∧
    device (params w2) = device (params w) + 2.
Proof.
  intros Hrun1.
  pose proof (analyze_color_Return_env _ _ _ _ _ _ _ _ _ _ Hrun1) as (Hmax & Hsave & Hfs).
  apply analyze_color_Return in Hrun1 as (c & Hc & Hb & Ht & -> & Hp1 & Ho1).
  destruct (analyze_color_runs lab hsv upper rgb mask bins t w1 c Hc) as [w2 Hrun2];
    [lia|done| |].
  { unfold save_possible. rewrite Hp1, Hfs. exact Hsave. }
  exists w2. split; [done|].
  apply analyze_color_Return in Hrun2 as (c' & Hc' & _ & _ & _ & Hp2 & Ho2).
  rewrite Hc in Hc'. injection Hc' as <-.
  rewrite Ho2, Ho1, Hp2. unfold outputs_of. cbn [measurements images params bump device].
  rewrite Hp1. cbn [params bump device].
  split; [|split; [|lia]].
  - rewrite lookup_insert_eq. cbn [default from_option]. unfold id.
    by rewrite stored_fields_idem, insert_insert_eq.
  - by rewrite <- app_assoc.
Qed.

End world.

(** ** The figure *)

Lemma range_by_25_elem stop x :
  x ∈ range_by_25 stop ↔ 0 ≤ x < stop ∧ (25 | x).
Proof.
  unfold range_by_25. rewrite list_elem_of_fmap. split.
  - intros (k & -> & Hk). apply elem_of_seqZ in Hk.
    assert (25 * k < stop).
    { destruct (decide (25 * k < stop)); [done|].
      assert ((stop + 24) `div` 25 ≤ k); [|lia].
      apply Z.lt_succ_r, Z.div_lt_upper_bound; lia. }
    split; [lia|]. exists k. lia.
  - intros [Hx [k ->]]. exists k. split; [lia|]. apply elem_of_seqZ.
    assert (k + 1 ≤ (stop + 24) `div` 25) by (apply Z.div_le_lower_bound; lia). lia.
Qed.

Lemma melt_rows binval hist vars bins bv cm cs med :
  Forall (λ name, name ∈ ["blue"; "green"; "red"; "lightness"; "green-magenta";
                          "blue-yellow"; "hue"; "saturation"; "value"]) vars →
  melt (dataset binval hist) vars =
    name ← vars;
    (λ '(b, x), (b, name, x))
      <$> zip binval
            (column color_header (color_data bins bv hist cm cs med) name).
Proof.
  unfold melt. induction 1 as [|name vars Hn _ IH]; [done|].
  rewrite !bind_cons, IH. f_equal.
  rewrite !elem_of_cons, elem_of_nil in Hn.
  destruct Hn as [->|[->|[->|[->|[->|[->|[->|[->|[->|[]]]]]]]]]]; reflexivity.
Qed.

Lemma melt_length binval hist vars :
  Forall (λ ch, length ch = length binval)
    [ch_b hist; ch_g hist; ch_r hist; ch_l hist; ch_m hist; ch_y hist;
     ch_h hist; ch_s hist; ch_v hist] →
  Forall (λ name, name ∈ ["blue"; "green"; "red"; "lightness"; "green-magenta";
                          "blue-yellow"; "hue"; "saturation"; "value"]) vars →
  length (melt (dataset binval hist) vars) = (length vars * length binval)%nat.
Proof.
  intros Hlen. unfold melt. induction 1 as [|name vars Hn _ IH]; [done|].
  rewrite bind_cons, length_app. cbn [length Nat.mul].
  apply (f_equal2 Nat.add); [|exact IH].
  rewrite length_fmap, length_zip.
  assert (length (default [] (dataset binval hist !! name)) = length binval) as ->;
    [|change (default [] (dataset binval hist !! "bins")) with binval; lia].
  repeat (apply Forall_cons in Hlen as [? Hlen]).
  rewrite !elem_of_cons, elem_of_nil in Hn.
  destruct Hn as [->|[->|[->|[->|[->|[->|[->|[->|[->|[]]]]]]]]]]; assumption.
Qed.

Section figure.

Variables lab hsv : Z * Z * Z → Z * Z * Z.
Variable upper : string → string.

(** X15: with a selector, the figure of a call that returns draws, for
    each channel label the upper-case form of the selector stands for
    (RGB, LAB, HSV or ALL), one row per bin: the bin, the label and the
    entry of the histogram that the value list reports under the header of
    the same name; the breaks of the x axis are the multiples of 25 from 0
    up to, but not including, the bin count. *)
Theorem figure_plots_returned_histograms rgb mask bins s w w' hd data figs :
  analyze_color lab hsv upper rgb mask bins (Some s) w = (w', Return (hd, data, figs)) →
  ∃ fig,
    figs = [fig] ∧
    upper s ∈ plot_keys ∧
    plot_frame fig =
      (name ← plotted_labels (upper s);
       (λ '(b, x), (b, name, x)) <$> zip (seqZ 0 bins) (column hd data name)) ∧
    length (plot_frame fig)
      = (length (plotted_labels (upper s)) * Z.to_nat bins)%nat ∧
    (∀ x, x ∈ plot_breaks fig ↔ 0 ≤ x < bins ∧ (25 | x)).
Proof.
  intros Hrun. apply analyze_color_Return in Hrun as (c & _ & Hb & Ht & Hres & _).
  injection Hres as -> -> ->.
  apply plot_type_rejected_false in Ht as [|(s' & [= <-] & Hin)]; [done|].
  set (hist := map_channels (hist_of bins (flat mask)) (map_channels (quantized bins) c)).
  assert (Forall (λ ch, length ch = length (np.arange bins))
            [ch_b hist; ch_g hist; ch_r hist; ch_l hist; ch_m hist; ch_y hist;
             ch_h hist; ch_s hist; ch_v hist]) as Hlen.
  { unfold np.arange. rewrite length_seqZ. repeat constructor; apply hist_of_length. }
  assert (length (np.arange bins) = Z.to_nat bins) as Hbv
    by (unfold np.arange; apply length_seqZ).
  unfold make_figures. unfold plot_keys in Hin |- *.
  rewrite !elem_of_cons, elem_of_nil in Hin.
  destruct Hin as [Hk|[Hk|[Hk|[Hk|[]]]]]; rewrite Hk;
    (eexists; split; [reflexivity|]; split; [set_solver|]);
    cbn [hist_figure plot_frame plot_breaks];
    (split; [apply melt_rows; repeat constructor; set_solver|]);
    (split; [rewrite melt_length, Hbv by (try exact Hlen; repeat constructor; set_solver);
             reflexivity|]);
    apply range_by_25_elem.
Qed.

End figure.

(** ** The further properties on concrete inputs *)

(** X5 on a call that cannot save its figure: the directory "out" is
    missing. *)
Lemma failure_changes_device_only_witness :
  ∃ w' e,
    analyze_color cv2_8u.achromatic_Lab cv2_8u.COLOR_BGR2HSV py.upper
      (image_1x1 0 255 0) (mask_1x1 255) 4 (Some "hsv") missing_outdir_world
      = (w', Raise e) ∧
    e = OSError "FileNotFoundError" "out/8_analyze_color_hist.png" ∧
    w' = bump missing_outdir_world.
Proof.
  destruct (analyze_color cv2_8u.achromatic_Lab cv2_8u.COLOR_BGR2HSV py.upper
              (image_1x1 0 255 0) (mask_1x1 255) 4 (Some "hsv") missing_outdir_world)
    as [w' [res|e]] eqn:E.
  - exfalso. vm_compute in E. discriminate.
  - exists w', e. split; [reflexivity|]. split.
    + vm_compute in E. by injection E as _ <-.
    + exact (failure_changes_device_only _ _ _ _ _ _ _ _ _ _ E).
Defined.

(** X8 with 186 bins, where 128 is put one level lower. *)
Lemma quantize_levels_witness :
  quantize [0; 128; 255] 186 = Return (level 186 <$> [0; 128; 255]) ∧
  Forall (λ x, 0 ≤ x ≤ 186 - 1) (level 186 <$> [0; 128; 255]) ∧
  (186 = 256 → level 186 <$> [0; 128; 255] = [0; 128; 255]).
Proof.
  apply (quantize_levels [0; 128; 255] 186).
  - lia.
  - repeat constructor; lia.
Defined.

(** X9 on four pixels with 48 bins: two masked-in pixels at level 1, one
    at the top level 47, which is not counted. *)
Lemma calcHist_counts_witness :
  ∃ hist,
    cv2.calcHist [1; 47; 1; 1] [255; 255; 0; 7] 48 (0, 48 - 1) = Return hist ∧
    hist !! 1%nat = Some 2 ∧ hist !! 47%nat = Some 0.
Proof.
  destruct (cv2.calcHist [1; 47; 1; 1] [255; 255; 0; 7] 48 (0, 48 - 1)) as [hist|e] eqn:E.
  - exists hist. split; [reflexivity|]. split.
    + rewrite (calcHist_counts [1; 47; 1; 1] [255; 255; 0; 7] 48 hist 1);
        [reflexivity|lia|repeat constructor; lia|vm_compute; discriminate|exact E|lia].
    + rewrite (calcHist_counts [1; 47; 1; 1] [255; 255; 0; 7] 48 hist 47);
        [reflexivity|lia|repeat constructor; lia|vm_compute; discriminate|exact E|lia].
  - exfalso. vm_compute in E. discriminate.
Defined.

(** X10 at the masked-out pixel of a 1 x 2 image. *)
Lemma split_channels_per_pixel_witness :
  ∃ c,
    split_channels cv2_8u.achromatic_Lab cv2_8u.COLOR_BGR2HSV
      (mk_ndarray [1; 2; 3]%nat [10; 200; 100; 7; 8; 9])
      (mk_ndarray [1; 2]%nat [255; 0]) = Return c ∧
    (ch_b c !! 1%nat, ch_g c !! 1%nat, ch_r c !! 1%nat) = (Some 0, Some 0, Some 0) ∧
    (ch_b c !! 0%nat, ch_g c !! 0%nat, ch_r c !! 0%nat) = (Some 10, Some 200, Some 100).
Proof.
  destruct (split_channels cv2_8u.achromatic_Lab cv2_8u.COLOR_BGR2HSV
              (mk_ndarray [1; 2; 3]%nat [10; 200; 100; 7; 8; 9])
              (mk_ndarray [1; 2]%nat [255; 0])) as [c|e] eqn:E.
  - exists c. split; [reflexivity|]. split.
    + apply (split_channels_per_pixel cv2_8u.achromatic_Lab cv2_8u.COLOR_BGR2HSV
               (mk_ndarray [1; 2; 3]%nat [10; 200; 100; 7; 8; 9])
               (mk_ndarray [1; 2]%nat [255; 0]) 1 2 c 1); [reflexivity..|exact E|cbn; lia].
    + apply (split_channels_per_pixel cv2_8u.achromatic_Lab cv2_8u.COLOR_BGR2HSV
               (mk_ndarray [1; 2; 3]%nat [10; 200; 100; 7; 8; 9])
               (mk_ndarray [1; 2]%nat [255; 0]) 1 2 c 0); [reflexivity..|exact E|cbn; lia].
  - exfalso. vm_compute in E. discriminate.
Defined.

(** X11 on a 1 x 2 image with 48 bins, a green pixel masked in: in the
    hue histogram the pixel, of hue 60 and level 11, is counted; in the
    green histogram the pixel, of level 47, is not. *)
Lemma histograms_count_pixels_witness :
  ∃ w' hd data figs hue green,
    analyze_color cv2_8u.achromatic_Lab cv2_8u.COLOR_BGR2HSV py.upper
      (mk_ndarray [1; 2; 3]%nat [0; 255; 0; 7; 8; 9])
      (mk_ndarray [1; 2]%nat [255; 0]) 48 None fresh_world
      = (w', Return (hd, data, figs)) ∧
    data !! (3 + 6)%nat = Some (VList hue) ∧ hue !! 11%nat = Some 1 ∧
    data !! (3 + 1)%nat = Some (VList green) ∧ green !! 47%nat = Some 0.
Proof.
  destruct (analyze_color cv2_8u.achromatic_Lab cv2_8u.COLOR_BGR2HSV py.upper
              (mk_ndarray [1; 2; 3]%nat [0; 255; 0; 7; 8; 9])
              (mk_ndarray [1; 2]%nat [255; 0]) 48 None fresh_world)
    as [w' [[[hd data] figs]|e]] eqn:E.
  - assert (∀ k, (k < 1 * 2)%nat →
              Forall (λ v, 0 ≤ v ≤ 255)
                (components cv2_8u.achromatic_Lab cv2_8u.COLOR_BGR2HSV
                   (masked_pixel (mk_ndarray [1; 2; 3]%nat [0; 255; 0; 7; 8; 9])
                      (mk_ndarray [1; 2]%nat [255; 0]) k))) as Hbytes.
    { intros k Hk. destruct k as [|[|k]]; [| |cbn in Hk; lia].
      - apply (bool_decide_unpack (Forall (λ v, 0 ≤ v ≤ 255) _)). vm_compute. exact I.
      - apply (bool_decide_unpack (Forall (λ v, 0 ≤ v ≤ 255) _)). vm_compute. exact I. }
    assert (masked_in (flat (mk_ndarray [1; 2]%nat [255; 0])) ≤ 2 ^ 24) as Hin
      by (vm_compute; discriminate).
    destruct (histograms_count_pixels cv2_8u.achromatic_Lab cv2_8u.COLOR_BGR2HSV py.upper
                (mk_ndarray [1; 2; 3]%nat [0; 255; 0; 7; 8; 9])
                (mk_ndarray [1; 2]%nat [255; 0]) 48 None fresh_world w' hd data figs
                1 2 6 11 E eq_refl eq_refl eq_refl Hin Hbytes)
      as (hue & Hd & Hh); [lia..|].
    destruct (histograms_count_pixels cv2_8u.achromatic_Lab cv2_8u.COLOR_BGR2HSV py.upper
                (mk_ndarray [1; 2; 3]%nat [0; 255; 0; 7; 8; 9])
                (mk_ndarray [1; 2]%nat [255; 0]) 48 None fresh_world w' hd data figs
                1 2 1 47 E eq_refl eq_refl eq_refl Hin Hbytes)
      as (green & Hd' & Hg); [lia..|].
    exists w', hd, data, figs, hue, green. split; [reflexivity|].
    split; [exact Hd|]. split; [rewrite Hh; vm_compute; reflexivity|].
    split; [exact Hd'|]. rewrite Hg. vm_compute. reflexivity.
  - exfalso. vm_compute in E. discriminate.
Defined.

(** X12 with debugging set to print: one file is saved, under "out". *)
Lemma debug_effects_witness :
  ∃ w' hd data figs fig,
    analyze_color cv2_8u.achromatic_Lab cv2_8u.COLOR_BGR2HSV py.upper
      (image_1x1 10 200 100) (mask_1x1 1) 4 (Some "hsv") stored_world
      = (w', Return (hd, data, figs)) ∧
    figs = [fig] ∧
    saved w' = saved stored_world ++ [("out/8_analyze_color_hist.png", fig)] ∧
    printed w' = printed stored_world.
Proof.
  destruct (analyze_color cv2_8u.achromatic_Lab cv2_8u.COLOR_BGR2HSV py.upper
              (image_1x1 10 200 100) (mask_1x1 1) 4 (Some "hsv") stored_world)
    as [w' [[[hd data] figs]|e]] eqn:E.
  - destruct (debug_effects _ _ _ _ _ _ _ _ _ _ _ _ E) as (fig & Hf & Hs & Hp).
    exists w', hd, data, figs, fig. split; [reflexivity|]. split; [exact Hf|].
    split; [rewrite Hs|rewrite Hp]; vm_compute; reflexivity.
  - exfalso. vm_compute in E. discriminate.
Defined.

(** X13 on two worlds that differ in the device counter, the debug mode
    and the stored measurements. *)
Lemma outcome_independent_of_world_witness :
  (analyze_color cv2_8u.achromatic_Lab cv2_8u.COLOR_BGR2HSV py.upper
     (image_1x1 10 200 100) (mask_1x1 1) 4 (Some "all") fresh_world).2
  = (analyze_color cv2_8u.achromatic_Lab cv2_8u.COLOR_BGR2HSV py.upper
       (image_1x1 10 200 100) (mask_1x1 1) 4 (Some "all") stored_world).2.
Proof.
  apply (outcome_independent_of_world cv2_8u.achromatic_Lab cv2_8u.COLOR_BGR2HSV py.upper
           (image_1x1 10 200 100) (mask_1x1 1) 4 (Some "all") fresh_world stored_world).
  - intros _ Hd. discriminate Hd.
  - intros _ _. reflexivity.
Defined.

(** X14 on a world that already holds measurements. *)
Lemma repeated_call_witness :
  ∃ w1 res w2,
    analyze_color cv2_8u.achromatic_Lab cv2_8u.COLOR_BGR2HSV py.upper
      (image_1x1 10 200 100) (mask_1x1 1) 4 (Some "all") stored_world
      = (w1, Return res) ∧
    analyze_color cv2_8u.achromatic_Lab cv2_8u.COLOR_BGR2HSV py.upper
      (image_1x1 10 200 100) (mask_1x1 1) 4 (Some "all") w1 = (w2, Return res) ∧
    measurements (outputs w2) = measurements (outputs w1) ∧
    images (outputs w2) = images (outputs stored_world) ++ [res.2; res.2] ∧
    device (params w2) = device (params stored_world) + 2.
Proof.
  destruct (analyze_color cv2_8u.achromatic_Lab cv2_8u.COLOR_BGR2HSV py.upper
              (image_1x1 10 200 100) (mask_1x1 1) 4 (Some "all") stored_world)
    as [w1 [res|e]] eqn:E.
  - destruct (repeated_call _ _ _ _ _ _ _ _ _ _ E) as (w2 & H).
    exists w1, res, w2. split; [reflexivity|exact H].
  - exfalso. vm_compute in E. discriminate.
Defined.

(** X15 with the selector "Lab" and four bins. *)
Lemma figure_plots_returned_histograms_witness :
  ∃ w' hd data figs fig,
    analyze_color cv2_8u.achromatic_Lab cv2_8u.COLOR_BGR2HSV py.upper
      (image_1x1 10 200 100) (mask_1x1 1) 4 (Some "Lab") fresh_world
      = (w', Return (hd, data, figs)) ∧
    figs = [fig] ∧
    py.upper "Lab" ∈ plot_keys ∧
    plot_frame fig =
      (name ← plotted_labels (py.upper "Lab");
       (λ '(b, x), (b, name, x)) <$> zip (seqZ 0 4) (column hd data name)) ∧
    length (plot_frame fig)
      = (length (plotted_labels (py.upper "Lab")) * Z.to_nat 4)%nat ∧
    (∀ x, x ∈ plot_breaks fig ↔ 0 ≤ x < 4 ∧ (25 | x)).
Proof.
  destruct (analyze_color cv2_8u.achromatic_Lab cv2_8u.COLOR_BGR2HSV py.upper
              (image_1x1 10 200 100) (mask_1x1 1) 4 (Some "Lab") fresh_world)
    as [w' [[[hd data] figs]|e]] eqn:E.
  - destruct (figure_plots_returned_histograms _ _ _ _ _ _ _ _ _ _ _ _ E) as (fig & H).
    exists w', hd, data, figs, fig. split; [reflexivity|exact H].
  - exfalso. vm_compute in E. discriminate.
Defined.
